(** * Text/Image generator demo (Streamlit + Gemini): the script as a
      state-passing program, and the properties of its response loop.

    The source is one Streamlit script, [text_image_generator]: a start-up
    block that configures the API key, and three button handlers (text,
    configured text, image).  The image handler walks the parts of the first
    candidate, writes text parts and base64-decodes and shows inline images.

    The script is embedded as a computation over an explicit world (the
    page rendered so far, the generation calls issued so far, the configured
    key) that may raise a Python exception or Streamlit's stop signal. *)

From Stdlib Require Import ZArith List String Ascii Lia Bool.
From Stdlib Require Import Strings.Byte Numbers.DecimalString Floats.
From stdpp Require Import gmap strings.
Import ListNotations.

Local Open Scope string_scope.
Local Open Scope Z_scope.
Local Open Scope list_scope.

(* ===================================================================== *)
(** ** Python exceptions *)
(* ===================================================================== *)

(** The exception classes the script can meet.  Every one of them derives
    from [Exception]; [binascii.Error] derives from [ValueError].
    [OtherException] stands for whatever the SDK or the transport raises
    (quota, authentication, model errors, ...). *)
Inductive exn_class :=
| Exception
| AttributeError
| KeyError
| FileNotFoundError
| IndexError
| ValueError
| binascii_Error
| UnidentifiedImageError
| OtherException (name : string).

(** A raised exception: its class and what [str(e)] prints. *)
Record exn := mk_exn { exn_cls : exn_class; exn_str : string }.

Definition exn_class_eqb (c d : exn_class) : bool :=
  match c, d with
  | Exception, Exception
  | AttributeError, AttributeError
  | KeyError, KeyError
  | FileNotFoundError, FileNotFoundError
  | IndexError, IndexError
  | ValueError, ValueError
  | binascii_Error, binascii_Error
  | UnidentifiedImageError, UnidentifiedImageError => true
  | OtherException n, OtherException m => String.eqb n m
  | _, _ => false
  end.

(** [issubclass c d], as an [except d:] clause tests it. *)
Definition issubclass (c d : exn_class) : bool :=
  match d with
  | Exception => true
  | ValueError => exn_class_eqb c ValueError || exn_class_eqb c binascii_Error
  | _ => exn_class_eqb c d
  end.

(* ===================================================================== *)
(** ** Bytes and base64 *)
(* ===================================================================== *)

Module Base64.

Definition byte_to_Z (b : byte) : Z := Z.of_N (Byte.to_N b).

(** Storing an [int] into an [unsigned char]: the low eight bits. *)
Definition Z_to_byte (z : Z) : byte :=
  match Byte.of_N (Z.to_N (z mod 256)) with
  | Some b => b
  | None => "000"%byte
  end.

Definition bytes_of (s : string) : list byte := list_byte_of_string s.

Definition BASE64_PAD : byte := "="%byte.

Definition table_b2a_base64 : list byte :=
  bytes_of "ABCDEFGHIJKLMNOPQRSTUVWXYZabcdefghijklmnopqrstuvwxyz0123456789+/".

Definition b2a (sextet : Z) : byte :=
  nth (Z.to_nat sextet) table_b2a_base64 "000"%byte.

(** [table_a2b_base64]: the value of an alphabet character, 64 for the pad
    character, 255 (the table's -1 as an unsigned char) for any other. *)
Definition table_a2b_base64 (c : byte) : Z :=
  let n := byte_to_Z c in
  if (65 <=? n) && (n <=? 90) then n - 65
  else if (97 <=? n) && (n <=? 122) then n - 71
  else if (48 <=? n) && (n <=? 57) then n + 4
  else if n =? 43 then 62
  else if n =? 47 then 63
  else if n =? 61 then 64
  else 255.

(** How the decoding loop ends: it jumps out at a complete pad sequence, or
    it reaches the end of the input at some position in a quad. *)
Inductive a2b_exit :=
| A2B_done (bin : list byte)
| A2B_end (quad_pos : Z) (bin : list byte).

(** The loop of [binascii.a2b_base64] in its lenient mode, the one
    [base64.b64decode(s)] runs when [validate] is left at [False]:
    characters outside the alphabet are dropped, a pad character counts only
    from position 2 of a quad on, and a complete pad sequence ends the
    decoding whatever follows. *)
Fixpoint a2b_base64_loop (ascii_data : list byte)
    (quad_pos leftchar pads : Z) (bin : list byte) : a2b_exit :=
  match ascii_data with
  | [] => A2B_end quad_pos bin
  | c :: rest =>
    if Byte.eqb c BASE64_PAD then
      if 2 <=? quad_pos then
        let pads := pads + 1 in
        if 4 <=? quad_pos + pads then A2B_done bin
        else a2b_base64_loop rest quad_pos leftchar pads bin
      else a2b_base64_loop rest quad_pos leftchar pads bin
    else
      let this_ch := table_a2b_base64 c in
      if 64 <=? this_ch then a2b_base64_loop rest quad_pos leftchar pads bin
      else if quad_pos =? 0 then
        a2b_base64_loop rest 1 this_ch 0 bin
      else if quad_pos =? 1 then
        a2b_base64_loop rest 2 (Z.land this_ch 15) 0
          (bin ++ [Z_to_byte (Z.lor (Z.shiftl leftchar 2) (Z.shiftr this_ch 4))])
      else if quad_pos =? 2 then
        a2b_base64_loop rest 3 (Z.land this_ch 3) 0
          (bin ++ [Z_to_byte (Z.lor (Z.shiftl leftchar 4) (Z.shiftr this_ch 2))])
      else
        a2b_base64_loop rest 0 0 0
          (bin ++ [Z_to_byte (Z.lor (Z.shiftl leftchar 6) this_ch)])
  end.

Definition decimal (n : Z) : string := NilZero.string_of_int (Z.to_int n).

(** After the loop: a quad left open is an error. *)
Definition a2b_finish (r : a2b_exit) : exn + list byte :=
  match r with
  | A2B_done bin => inr bin
  | A2B_end quad_pos bin =>
    if quad_pos =? 0 then inr bin
    else if quad_pos =? 1 then
      inl (mk_exn binascii_Error
             ("Invalid base64-encoded string: number of data characters ("
              ++ decimal (Z.of_nat (length bin) / 3 * 4 + 1)
              ++ ") cannot be 1 more than a multiple of 4")%string)
    else inl (mk_exn binascii_Error "Incorrect padding")
  end.

Definition a2b_base64 (data : list byte) : exn + list byte :=
  a2b_finish (a2b_base64_loop data 0 0 0 []).

(** [base64.b64decode(s)] with its defaults ([altchars=None],
    [validate=False]) on a bytes payload. *)
Definition b64decode (s : list byte) : exn + list byte := a2b_base64 s.

(** [base64.b64encode]: the standard padded encoding, three bytes to four
    characters. *)
Fixpoint b64encode (bin : list byte) : list byte :=
  match bin with
  | [] => []
  | [b1] =>
    let x1 := byte_to_Z b1 in
    [b2a (Z.shiftr x1 2); b2a (Z.shiftl (Z.land x1 3) 4);
     BASE64_PAD; BASE64_PAD]
  | [b1; b2] =>
    let x1 := byte_to_Z b1 in
    let x2 := byte_to_Z b2 in
    [b2a (Z.shiftr x1 2);
     b2a (Z.lor (Z.shiftl (Z.land x1 3) 4) (Z.shiftr x2 4));
     b2a (Z.shiftl (Z.land x2 15) 2);
     BASE64_PAD]
  | b1 :: b2 :: b3 :: rest =>
    let x1 := byte_to_Z b1 in
    let x2 := byte_to_Z b2 in
    let x3 := byte_to_Z b3 in
    b2a (Z.shiftr x1 2)
    :: b2a (Z.lor (Z.shiftl (Z.land x1 3) 4) (Z.shiftr x2 4))
    :: b2a (Z.lor (Z.shiftl (Z.land x2 15) 2) (Z.shiftr x3 6))
    :: b2a (Z.land x3 63)
    :: b64encode rest
  end.

(** The two tables agree on a sextet, and its character is not the pad. *)
Definition sextet_ok (s : Z) : bool :=
  negb (Byte.eqb (b2a s) BASE64_PAD) && (table_a2b_base64 (b2a s) =? s).

(** The characters the decoding loop acts on: the pad character and the
    characters of the alphabet.  Every other one is skipped. *)
Definition significant (c : byte) : bool :=
  Byte.eqb c BASE64_PAD || (table_a2b_base64 c <? 64).

(** The bytes a quad position still owes to the characters read so far. *)
Definition quad_credit (quad_pos : Z) : Z :=
  if quad_pos =? 0 then 0 else 4 - quad_pos.

(** The bytes the loop has written when it ends. *)
Definition a2b_written (r : a2b_exit) : list byte :=
  match r with
  | A2B_done bin => bin
  | A2B_end _ bin => bin
  end.

End Base64.

(* ===================================================================== *)
(** ** The values of the SDK *)
(* ===================================================================== *)

(** [part.inline_data]: a blob with its MIME type and its payload. *)
Record Blob := mk_Blob { mime_type : string; data : list byte }.

(** A part of a candidate's content.  The script reads two attributes and
    tests each for truth: [text] is false when empty, [inline_data] is false
    when unset and, being a message, also when set with every field empty. *)
Record Part := mk_Part { text : string; inline_data : option Blob }.

Record Content := mk_Content { parts : list Part }.
Record Candidate := mk_Candidate { content : Content }.
Record GenerateContentResponse := mk_Response { candidates : list Candidate }.

(** The generation configuration a request may carry. *)
Record GenerateContentConfig := mk_Config {
  max_output_tokens : option Z;
  temperature : option float;
  response_mime_types : option (list string)
}.

(** One [generate_content] call as it reaches the SDK: the model the
    [GenerativeModel] was built for, the prompt, the configuration. *)
Record Request := mk_Request {
  model_name : string;
  contents : string;
  generation_config : option GenerateContentConfig
}.

(** Truth value of a Python [str]. *)
Definition str_bool (s : string) : bool := negb (String.eqb s "").

(** Truth value of a blob message: true when a field of it is not empty. *)
Definition Blob_bool (blob : Blob) : bool :=
  str_bool (mime_type blob)
  || match data blob with [] => false | _ :: _ => true end.

(* ===================================================================== *)
(** ** The script *)
(* ===================================================================== *)

(** What the browser session holds for each widget.  A text or slider entry
    is [None] as long as the user has not touched the widget, which then
    returns the default the script gives it; a slider's value lies between
    the bounds the script gives it. *)
Record session := mk_session {
  text_query_in : option string;
  generate_text_clicked : bool;
  explain_ai_query_in : option string;
  max_tokens_in : option Z;
  temperature_in : option float;
  generate_configured_clicked : bool;
  image_prompt_in : option string;
  generate_image_clicked : bool
}.

(** A signal that unwinds the script: a Python exception, or the
    [StopException] of [st.stop()], which is no [Exception]. *)
Inductive signal :=
| Raise (e : exn)
| StopException.

(** What the script takes from its libraries and from the network. *)
Class SDK := {
  (** PIL's image objects, and [Image.open] on a byte buffer. *)
  Image : Type;
  Image_open : list byte -> exn + Image;
  (** The remote API behind [GenerativeModel.generate_content]: what the
      call number [n] of a run answers to a request. *)
  generate_content : nat -> Request -> exn + GenerateContentResponse;
  (** The [response.text] accessor of the SDK. *)
  response_text : GenerateContentResponse -> exn + string;
  (** What [str(e)] is for the errors of [st.secrets]: of the [KeyError]
      for a key, and of the [FileNotFoundError]. *)
  secrets_KeyError_str : string -> string;
  secrets_FileNotFoundError_str : string
}.

Section Script.

Context {sdk : SDK}.

(** What a Streamlit call puts on the page. *)
Inductive element :=
| st_title (body : string)
| st_markdown (body : string)
| st_header (body : string)
| st_write (body : string)
| st_success (body : string)
| st_error (body : string)
| st_info (body : string)
| st_warning (body : string)
| st_spinner (body : string)
| st_text_input (label : string)
| st_text_area (label : string)
| st_slider (label : string) (min_value max_value : Z)
| st_slider_float (label : string) (min_value max_value step : float)
    (* the step 0.1 of the script is the double 0x1.999999999999ap-4 *)
| st_button (label : string)
| st_image (image : Image) (caption : string) (use_column_width : bool).

(** The world a run acts on. *)
Record world := mk_world {
  page : list element;
  calls : list Request;
  api_key : option string
}.

Definition initial_world : world := mk_world [] [] None.

Definition M (A : Type) : Type := world -> world * (signal + A).

Definition ret {A} (a : A) : M A := fun w => (w, inr a).

Definition bind {A B} (c : M A) (k : A -> M B) : M B :=
  fun w =>
    match c w with
    | (w', inr a) => k a w'
    | (w', inl sig) => (w', inl sig)
    end.

Definition raise {A} (e : exn) : M A := fun w => (w, inl (Raise e)).

(** A value or an exception from a library call. *)
Definition lift {A} (r : exn + A) : M A :=
  match r with
  | inl e => raise e
  | inr a => ret a
  end.

(** [try: body except cls as e: handler]. *)
Definition try_except {A} (body : M A) (cls : exn_class)
    (handler : exn -> M A) : M A :=
  fun w =>
    match body w with
    | (w', inl (Raise e)) =>
      if issubclass (exn_cls e) cls then handler e w'
      else (w', inl (Raise e))
    | r => r
    end.

Local Notation "x <- c1 ;; c2" := (bind c1 (fun x => c2))
  (at level 100, c1 at next level, right associativity).
Local Notation "c1 ;; c2" := (bind c1 (fun _ => c2))
  (at level 100, right associativity).

Definition show (e : element) : M unit :=
  fun w => (mk_world (page w ++ [e]) (calls w) (api_key w), inr tt).

Definition st_stop {A} : M A := fun w => (w, inl StopException).

(** The value a widget returns for a session. *)
Definition value_or {A} (value : option A) (default : A) : A :=
  match value with Some v => v | None => default end.

(** A widget draws itself and returns the session's value for it. *)
Definition widget {A} (e : element) (value : option A) (default : A) : M A :=
  show e;; ret (value_or value default).

(** [st.secrets[key]]: a mapping read from the secrets file.  Subscripting
    it raises [FileNotFoundError] when there is no secrets file and
    [KeyError] when the file has no such key. *)
Definition secrets_getitem (secrets : option (gmap string string))
    (key : string) : M string :=
  match secrets with
  | None => raise (mk_exn FileNotFoundError secrets_FileNotFoundError_str)
  | Some entries =>
    match entries !! key with
    | Some v => ret v
    | None => raise (mk_exn KeyError (secrets_KeyError_str key))
    end
  end.

Definition genai_configure (key : string) : M unit :=
  fun w => (mk_world (page w) (calls w) (Some key), inr tt).

(** [GenerativeModel(model).generate_content(prompt, generation_config=...)]:
    the request is issued, then the API answers or fails. *)
Definition model_generate_content (model prompt : string)
    (config : option GenerateContentConfig) : M GenerateContentResponse :=
  fun w =>
    let req := mk_Request model prompt config in
    let w' := mk_world (page w) (calls w ++ [req]) (api_key w) in
    match generate_content (length (calls w)) req with
    | inl e => (w', inl (Raise e))
    | inr response => (w', inr response)
    end.

(** [types.GenerateContentConfig(...)], [types] being
    [google.generativeai.types].  That module has no attribute of this name
    (the class belongs to the other SDK, [google.genai]), so looking it up
    raises before any keyword is evaluated. *)
Definition types_GenerateContentConfig (max_output_tokens : option Z)
    (temperature : option float) (response_mime_types : option (list string))
    : M GenerateContentConfig :=
  raise (mk_exn AttributeError
           "module 'google.generativeai.types' has no attribute 'GenerateContentConfig'").

(** Lines 21-25: the API key. *)
Definition configure_api_key (secrets : option (gmap string string)) : M unit :=
  try_except
    (key <- secrets_getitem secrets "GOOGLE_API_KEY";;
     genai_configure key)
    AttributeError
    (fun _ =>
       show (st_error "Please set your Google API Key in Streamlit secrets. Refer to the comments in the code.");;
       st_stop).

(** Lines 41-46: the body of the text handler's [try]. *)
Definition generate_text_body (text_query : string) : M unit :=
  response <- (show (st_spinner "Generating text...");;
               model_generate_content "gemini-pro" text_query None);;
  show (st_success "Response:");;
  t <- lift (response_text response);;
  show (st_write t).

(** Lines 40-50: what the "Generate Text Response" button runs. *)
Definition generate_text_response (text_query : string) : M unit :=
  if str_bool text_query then
    try_except (generate_text_body text_query) Exception
      (fun e => show (st_error ("Error generating text: " ++ exn_str e)%string))
  else show (st_warning "Please enter a question.").

(** Lines 65-75. *)
Definition generate_configured_body (explain_ai_query : string)
    (max_tokens : Z) (temperature : float) : M unit :=
  response <- (show (st_spinner "Generating configured text...");;
               config <- types_GenerateContentConfig
                           (Some max_tokens) (Some temperature) None;;
               model_generate_content "gemini-pro" explain_ai_query
                 (Some config));;
  show (st_success "Configured Response:");;
  t <- lift (response_text response);;
  show (st_write t).

(** Lines 63-79: what the "Generate Configured Text" button runs. *)
Definition generate_configured_text (explain_ai_query : string)
    (max_tokens : Z) (temperature : float) : M unit :=
  if str_bool explain_ai_query then
    try_except (generate_configured_body explain_ai_query max_tokens temperature)
      Exception
      (fun e =>
         show (st_error ("Error generating configured text: " ++ exn_str e)%string))
  else show (st_warning "Please enter a topic to explain.").

(** Lines 107-112: the body of the loop over the parts. *)
Definition show_part (part : Part) : M unit :=
  if str_bool (text part) then
    show (st_write ("Model's description/text: " ++ text part)%string)
  else
    match inline_data part with
    | Some blob =>
      if Blob_bool blob then
        image_data <- lift (Base64.b64decode (data blob));;
        image <- lift (Image_open image_data);;
        show (st_image image "Generated Image" true)
      else ret tt
    | None => ret tt
    end.

(** [for part in ...: body]: an exception in the body leaves the loop. *)
Fixpoint show_parts (ps : list Part) : M unit :=
  match ps with
  | [] => ret tt
  | part :: rest => show_part part;; show_parts rest
  end.

(** [response.candidates[0].content.parts]. *)
Definition first_candidate_parts (response : GenerateContentResponse)
    : M (list Part) :=
  match candidates response with
  | [] => raise (mk_exn IndexError "list index out of range")
  | candidate :: _ => ret (parts (content candidate))
  end.

(** Lines 106-112: the response loop. *)
Definition show_response (response : GenerateContentResponse) : M unit :=
  ps <- first_candidate_parts response;;
  show_parts ps.

(** Lines 95-112. *)
Definition generate_image_body (image_prompt : string) : M unit :=
  response <- (show (st_spinner "Generating image... This might take a moment...");;
               config <- types_GenerateContentConfig
                           None None (Some ["image/png"%string]);;
               model_generate_content "gemini-1.5-flash" image_prompt
                 (Some config));;
  show (st_success "Generated Image:");;
  show_response response.

(** Lines 93-120: what the "Generate Image" button runs. *)
Definition generate_image (image_prompt : string) : M unit :=
  if str_bool image_prompt then
    try_except (generate_image_body image_prompt) Exception
      (fun e =>
         show (st_error ("Error generating image: " ++ exn_str e)%string);;
         show (st_info "Ensure you are using a model capable of image generation (e.g., `gemini-1.5-flash`)."))
  else show (st_warning "Please enter an image description.").

(** Lines 34-50. *)
Definition text_section (s : session) : M unit :=
  show (st_header "Text Generation");;
  show (st_write "Ask Gemini a question and get a text response.");;
  text_query <- widget (st_text_input "Your question:") (text_query_in s)
                  "Who is the god of cricket?"%string;;
  clicked <- widget (st_button "Generate Text Response")
               (Some (generate_text_clicked s)) false;;
  if clicked : bool then generate_text_response text_query else ret tt.

(** Lines 55-79. *)
Definition configured_section (s : session) : M unit :=
  show (st_header "Configurable Text Generation");;
  show (st_write "Generate text with custom parameters like max output tokens and temperature.");;
  explain_ai_query <- widget (st_text_area "Topic to explain:")
                        (explain_ai_query_in s) "Explain how AI works"%string;;
  max_tokens <- widget (st_slider "Max Output Tokens:" 50 500)
                  (max_tokens_in s) 100;;
  temperature <- widget (st_slider_float "Temperature (creativity):"
                           0.0%float 2.0%float 0x1.999999999999ap-4%float)
                   (temperature_in s) 1.5%float;;
  clicked <- widget (st_button "Generate Configured Text")
               (Some (generate_configured_clicked s)) false;;
  if clicked : bool
  then generate_configured_text explain_ai_query max_tokens temperature
  else ret tt.

(** Lines 84-120. *)
Definition image_section (s : session) : M unit :=
  show (st_header "Image Generation");;
  show (st_write "Describe an image you want Gemini to create.");;
  image_prompt <- widget (st_text_area "Describe the image:") (image_prompt_in s)
                    "A 3D rendered image of an RCB team, futuristic cricket stadium"%string;;
  clicked <- widget (st_button "Generate Image")
               (Some (generate_image_clicked s)) false;;
  if clicked : bool then generate_image image_prompt else ret tt.

Definition closing_note : element :=
  st_info "Note: The `google.colab.drive` import is specific to Google Colab and is not relevant for a Streamlit app.".

(** One run of the script, top to bottom. *)
Definition script (secrets : option (gmap string string)) (s : session)
    : M unit :=
  configure_api_key secrets;;
  show (st_title "Gemini API Demo with Streamlit");;
  show (st_markdown "
This app demonstrates basic text and image generation using Google's Gemini API.
");;
  text_section s;;
  show (st_markdown "---");;
  configured_section s;;
  show (st_markdown "---");;
  image_section s;;
  show (st_markdown "---");;
  show closing_note.

(** What the loop body puts on the page for one part when it does not
    raise: the at most one element of that part. *)
Definition shown_for (part : Part) : list element :=
  if str_bool (text part) then
    [st_write ("Model's description/text: " ++ text part)%string]
  else
    match inline_data part with
    | Some blob =>
      if Blob_bool blob then
        match Base64.b64decode (data blob) with
        | inr image_data =>
          match Image_open image_data with
          | inr image => [st_image image "Generated Image" true]
          | inl _ => []
          end
        | inl _ => []
        end
      else []
    | None => []
    end.

(** The world once a call has been issued. *)
Definition with_call (w : world) (req : Request) : world :=
  mk_world (page w) (calls w ++ [req]) (api_key w).

(** What subscripting the secrets raises when the key cannot be read. *)
Definition missing_key_error (secrets : option (gmap string string)) : exn :=
  match secrets with
  | None => mk_exn FileNotFoundError secrets_FileNotFoundError_str
  | Some _ => mk_exn KeyError (secrets_KeyError_str "GOOGLE_API_KEY")
  end.

(** The key the script asks for, if the secrets hold it. *)
Definition configured_key (secrets : option (gmap string string))
    : option string :=
  match secrets with
  | None => None
  | Some entries => entries !! "GOOGLE_API_KEY"%string
  end.

(** The calls a run of the text section issues for a session: one when its
    button is pressed on a prompt that is not empty. *)
Definition text_requests (s : session) : list Request :=
  let text_query := value_or (text_query_in s) "Who is the god of cricket?"%string in
  if generate_text_clicked s && str_bool text_query
  then [mk_Request "gemini-pro" text_query None] else [].

(** A computation that, however it ends, issues exactly the calls [reqs]. *)
Definition issues {A} (c : M A) (reqs : list Request) : Prop :=
  forall w, calls (fst (c w)) = calls w ++ reqs.

(** [w] with [shown] added at the end of its page. *)
Definition with_shown (w : world) (shown : list element) : world :=
  mk_world (page w ++ shown) (calls w) (api_key w).

(** A computation that [st.stop()] never interrupts. *)
Definition never_stops {A} (c : M A) : Prop :=
  forall w w', c w <> (w', inl StopException).

(** The two models the script names. *)
Definition known_model (req : Request) : Prop :=
  model_name req = "gemini-pro"%string
  \/ model_name req = "gemini-1.5-flash"%string.

(** A computation that, however it ends, leaves the configured key alone. *)
Definition keeps_key {A} (c : M A) : Prop :=
  forall w, api_key (fst (c w)) = api_key w.

(** A part the loop body gets through without raising: it has a text, or
    inline data that is unset or empty, or inline data that decodes and
    opens. *)
Definition part_shows (part : Part) : bool :=
  str_bool (text part)
  || match inline_data part with
     | None => true
     | Some blob =>
       negb (Blob_bool blob)
       || match Base64.b64decode (data blob) with
          | inr image_data =>
            match Image_open image_data with
            | inr _ => true
            | inl _ => false
            end
          | inl _ => false
          end
     end.

(** A part with neither a text nor inline data that is true. *)
Definition neither (part : Part) : bool :=
  negb (str_bool (text part))
  && match inline_data part with
     | None => true
     | Some blob => negb (Blob_bool blob)
     end.

(** What each section draws before it looks at its button. *)
Definition text_form : list element :=
  [st_header "Text Generation";
   st_write "Ask Gemini a question and get a text response.";
   st_text_input "Your question:";
   st_button "Generate Text Response"].

Definition configured_form : list element :=
  [st_header "Configurable Text Generation";
   st_write "Generate text with custom parameters like max output tokens and temperature.";
   st_text_area "Topic to explain:";
   st_slider "Max Output Tokens:" 50 500;
   st_slider_float "Temperature (creativity):"
     0.0%float 2.0%float 0x1.999999999999ap-4%float;
   st_button "Generate Configured Text"].

Definition image_form : list element :=
  [st_header "Image Generation";
   st_write "Describe an image you want Gemini to create.";
   st_text_area "Describe the image:";
   st_button "Generate Image"].

(** The page of a run in which no button is pressed. *)
Definition static_page : list element :=
  [st_title "Gemini API Demo with Streamlit";
   st_markdown "
This app demonstrates basic text and image generation using Google's Gemini API.
"]
  ++ text_form ++ [st_markdown "---"]
  ++ configured_form ++ [st_markdown "---"]
  ++ image_form ++ [st_markdown "---"; closing_note].

End Script.

(* ===================================================================== *)
(** ** Instances for the examples *)
(* ===================================================================== *)

Module Examples.

Definition png_signature : list byte :=
  map Base64.Z_to_byte [137; 80; 78; 71; 13; 10; 26; 10].

Fixpoint starts_with (prefix buf : list byte) : bool :=
  match prefix, buf with
  | [], _ => true
  | p :: prefix', b :: buf' => Byte.eqb p b && starts_with prefix' buf'
  | _ :: _, [] => false
  end.

(** An [Image.open] that accepts a buffer by its PNG signature and keeps
    the bytes as the image. *)
Definition open_png (buf : list byte) : exn + list byte :=
  if starts_with png_signature buf then inr buf
  else inl (mk_exn UnidentifiedImageError "cannot identify image file").

(** A [response.text] that joins the text of the first candidate's parts. *)
Definition joined_text (response : GenerateContentResponse) : exn + string :=
  match candidates response with
  | [] => inl (mk_exn ValueError "response.text requires a candidate")
  | candidate :: _ =>
    inr (fold_right String.append ""%string (map text (parts (content candidate))))
  end.

Definition sdk_with (api : nat -> Request -> exn + GenerateContentResponse)
    : SDK :=
  {| Image := list byte;
     Image_open := open_png;
     generate_content := api;
     response_text := joined_text;
     secrets_KeyError_str := fun key => ("'" ++ key ++ "'")%string;
     secrets_FileNotFoundError_str := "No secrets files found." |}.

(** A remote API that always fails, and one that always gives the same
    answer. *)
Definition api_failing (e : exn) : nat -> Request -> exn + GenerateContentResponse :=
  fun _ _ => inl e.

Definition api_answering (response : GenerateContentResponse)
    : nat -> Request -> exn + GenerateContentResponse :=
  fun _ _ => inr response.

Definition quota_error : exn :=
  mk_exn (OtherException "ResourceExhausted") "429 quota exceeded".

(** A one-pixel PNG, base64-encoded, and its bytes. *)
Definition pixel_base64 : list byte :=
  Base64.bytes_of
    "iVBORw0KGgoAAAANSUhEUgAAAAEAAAABCAYAAAAfFcSJAAAADUlEQVR42mNkYPhfDwAChwGA60e6kgAAAABJRU5ErkJggg==".

Definition pixel_bytes : list byte :=
  Eval vm_compute in
    match Base64.b64decode pixel_base64 with
    | inr bin => bin
    | inl _ => []
    end.

Definition text_part (t : string) : Part := mk_Part t None.

Definition image_part (payload : list byte) : Part :=
  mk_Part "" (Some (mk_Blob "image/png" payload)).

Definition response_of (ps : list Part) : GenerateContentResponse :=
  mk_Response [mk_Candidate (mk_Content ps)].

Definition idle_session : session :=
  mk_session None false None None None false None false.

(** Every button pressed on an empty prompt. *)
Definition empty_prompts_session : session :=
  mk_session (Some ""%string) true (Some ""%string) None None true
    (Some ""%string) true.

(** The configured-text form as it first shows, with its button pressed. *)
Definition configured_session : session :=
  mk_session None false (Some "Explain how AI works"%string) (Some 100)
    (Some 1.5%float) true None false.

(** The SDK over an API out of quota, and over one whose answer has no
    candidate. *)
Definition failing_sdk : SDK := sdk_with (api_failing quota_error).

Definition no_candidate_sdk : SDK := sdk_with (api_answering (mk_Response [])).

(** An inline image whose payload is one data character, then a text. *)
Definition broken_then_text : list Part :=
  [image_part (Base64.bytes_of "A"); text_part "b"].

Definition one_character_error : exn :=
  mk_exn binascii_Error
    "Invalid base64-encoded string: number of data characters (1) cannot be 1 more than a multiple of 4".

(** The SDK over an API whose answer has one candidate with the given
    parts. *)
Definition answering_sdk (ps : list Part) : SDK :=
  sdk_with (api_answering (response_of ps)).

(** Secrets that hold a key. *)
Definition secrets_with_key : option (gmap string string) :=
  Some {[ "GOOGLE_API_KEY"%string := "k"%string ]}.

(** A payload that decodes, to three bytes that are no PNG. *)
Definition not_an_image : list byte := Base64.bytes_of "TWFu".

End Examples.

(* ===================================================================== *)
(** ** Facts about base64 *)
(* ===================================================================== *)

Module Base64Facts.
Import Base64.

(** *** Bit operations on small numbers as arithmetic *)

Lemma land_shiftl_small a b n :
  0 <= n -> 0 <= b < 2 ^ n -> Z.land (Z.shiftl a n) b = 0.
Proof.
  intros Hn Hb. apply Z.bits_inj'. intros m Hm.
  rewrite Z.land_spec, Z.bits_0.
  destruct (Z.lt_ge_cases m n) as [Hlt | Hge].
  - rewrite Z.shiftl_spec_low by lia. reflexivity.
  - replace b with (b mod 2 ^ n) by (apply Z.mod_small; lia).
    rewrite Z.mod_pow2_bits_high by lia. apply andb_false_r.
Qed.

Lemma lor_mul_pow2_add a b n :
  0 <= n -> 0 <= b < 2 ^ n -> Z.lor (a * 2 ^ n) b = a * 2 ^ n + b.
Proof.
  intros Hn Hb.
  rewrite <- Z.shiftl_mul_pow2 by lia.
  rewrite <- Z.lxor_lor by (apply land_shiftl_small; lia).
  rewrite <- Z.add_nocarry_lxor by (apply land_shiftl_small; lia).
  reflexivity.
Qed.

Lemma land_3 x : Z.land x 3 = x mod 4.
Proof. change 3 with (Z.ones 2). now rewrite Z.land_ones. Qed.

Lemma land_15 x : Z.land x 15 = x mod 16.
Proof. change 15 with (Z.ones 4). now rewrite Z.land_ones. Qed.

Lemma land_63 x : Z.land x 63 = x mod 64.
Proof. change 63 with (Z.ones 6). now rewrite Z.land_ones. Qed.

Ltac pow_consts :=
  change (2 ^ 2) with 4 in *; change (2 ^ 4) with 16 in *;
  change (2 ^ 6) with 64 in *.

Ltac divmod := pow_consts; Z.div_mod_to_equations; lia.

(** Masks become remainders, right shifts quotients, and an or of a left
    shift with a number below the shift a sum; an inner or first, since the
    side condition of an outer one needs it in arithmetic form. *)
Ltac bits_to_arith :=
  rewrite ?land_3, ?land_15, ?land_63;
  rewrite ?Z.shiftr_div_pow2 by lia;
  rewrite ?Z.shiftl_mul_pow2 by lia;
  repeat match goal with
  | |- context [Z.lor (?a * 2 ^ ?n) ?b] =>
      rewrite (lor_mul_pow2_add a b n) by (try lia; divmod)
  end;
  pow_consts.

(** *** Bytes *)

Lemma byte_to_Z_range b : 0 <= byte_to_Z b < 256.
Proof.
  unfold byte_to_Z. pose proof (Byte.to_N_bounded b) as H. lia.
Qed.

Lemma Z_to_byte_to_Z b : Z_to_byte (byte_to_Z b) = b.
Proof.
  unfold Z_to_byte.
  rewrite Z.mod_small by apply byte_to_Z_range.
  unfold byte_to_Z. rewrite N2Z.id, Byte.of_to_N. reflexivity.
Qed.

Lemma Z_to_byte_eq z b : z = byte_to_Z b -> Z_to_byte z = b.
Proof. intros ->. apply Z_to_byte_to_Z. Qed.

(** *** The two tables *)

Lemma sextets_ok : forallb sextet_ok (map Z.of_nat (seq 0 64)) = true.
Proof. vm_compute. reflexivity. Qed.

Lemma b2a_spec s :
  0 <= s < 64 ->
  Byte.eqb (b2a s) BASE64_PAD = false /\ table_a2b_base64 (b2a s) = s.
Proof.
  intros Hs.
  pose proof sextets_ok as H. rewrite forallb_forall in H.
  specialize (H s). unfold sextet_ok in H.
  assert (Hin : In s (map Z.of_nat (seq 0 64))).
  { rewrite <- (Z2Nat.id s) by lia. apply in_map. apply in_seq. lia. }
  apply H in Hin. apply andb_true_iff in Hin as [Hpad Htab].
  split.
  - now apply negb_true_iff.
  - now apply Z.eqb_eq.
Qed.

(** *** The steps of the decoding loop on one alphabet character *)

Lemma loop_data s rest quad_pos leftchar pads bin :
  0 <= s < 64 ->
  a2b_base64_loop (b2a s :: rest) quad_pos leftchar pads bin =
  if quad_pos =? 0 then a2b_base64_loop rest 1 s 0 bin
  else if quad_pos =? 1 then
    a2b_base64_loop rest 2 (Z.land s 15) 0
      (bin ++ [Z_to_byte (Z.lor (Z.shiftl leftchar 2) (Z.shiftr s 4))])
  else if quad_pos =? 2 then
    a2b_base64_loop rest 3 (Z.land s 3) 0
      (bin ++ [Z_to_byte (Z.lor (Z.shiftl leftchar 4) (Z.shiftr s 2))])
  else
    a2b_base64_loop rest 0 0 0
      (bin ++ [Z_to_byte (Z.lor (Z.shiftl leftchar 6) s)]).
Proof.
  intros Hs. destruct (b2a_spec s Hs) as [Hpad Htab].
  cbn [a2b_base64_loop]. rewrite Hpad. cbv zeta. rewrite Htab.
  destruct (64 <=? s) eqn:E; [apply Z.leb_le in E; lia | reflexivity].
Qed.

(** Four characters of a full quad give back its three bytes. *)
Lemma loop_quad b1 b2 b3 rest bin :
  let x1 := byte_to_Z b1 in
  let x2 := byte_to_Z b2 in
  let x3 := byte_to_Z b3 in
  a2b_base64_loop
    (b2a (Z.shiftr x1 2)
     :: b2a (Z.lor (Z.shiftl (Z.land x1 3) 4) (Z.shiftr x2 4))
     :: b2a (Z.lor (Z.shiftl (Z.land x2 15) 2) (Z.shiftr x3 6))
     :: b2a (Z.land x3 63) :: rest) 0 0 0 bin =
  a2b_base64_loop rest 0 0 0 (bin ++ [b1; b2; b3]).
Proof.
  intros x1 x2 x3.
  pose proof (byte_to_Z_range b1) as H1.
  pose proof (byte_to_Z_range b2) as H2.
  pose proof (byte_to_Z_range b3) as H3.
  fold x1 in H1. fold x2 in H2. fold x3 in H3.
  rewrite !loop_data by (bits_to_arith; divmod).
  cbn [Z.eqb Pos.eqb].
  rewrite <- !app_assoc. cbn [app].
  f_equal. f_equal. f_equal; [| f_equal; [| f_equal]];
    apply Z_to_byte_eq; bits_to_arith; divmod.
Qed.

Lemma loop_pad_skip rest quad_pos leftchar pads bin :
  2 <= quad_pos -> quad_pos + pads + 1 < 4 ->
  a2b_base64_loop (BASE64_PAD :: rest) quad_pos leftchar pads bin =
  a2b_base64_loop rest quad_pos leftchar (pads + 1) bin.
Proof.
  intros Hq Hp. cbn [a2b_base64_loop].
  change (Byte.eqb BASE64_PAD BASE64_PAD) with true. cbv iota zeta.
  destruct (2 <=? quad_pos) eqn:E; [| apply Z.leb_gt in E; lia].
  destruct (4 <=? quad_pos + (pads + 1)) eqn:F;
    [apply Z.leb_le in F; lia | reflexivity].
Qed.

Lemma loop_pad_done rest quad_pos leftchar pads bin :
  2 <= quad_pos -> 4 <= quad_pos + pads + 1 ->
  a2b_base64_loop (BASE64_PAD :: rest) quad_pos leftchar pads bin =
  A2B_done bin.
Proof.
  intros Hq Hp. cbn [a2b_base64_loop].
  change (Byte.eqb BASE64_PAD BASE64_PAD) with true. cbv iota zeta.
  destruct (2 <=? quad_pos) eqn:E; [| apply Z.leb_gt in E; lia].
  destruct (4 <=? quad_pos + (pads + 1)) eqn:F;
    [reflexivity | apply Z.leb_gt in F; lia].
Qed.

(** Induction on a byte sequence three bytes at a time. *)
Lemma list_ind3 {A} (P : list A -> Prop) :
  P [] -> (forall a, P [a]) -> (forall a b, P [a; b]) ->
  (forall a b c l, P l -> P (a :: b :: c :: l)) ->
  forall l, P l.
Proof.
  intros H0 H1 H2 H3.
  fix IH 1. intros [| a [| b [| c l]]].
  - exact H0.
  - exact (H1 a).
  - exact (H2 a b).
  - exact (H3 a b c l (IH l)).
Qed.

(** The loop on an encoding, from the start of a quad. *)
Lemma loop_b64encode bin acc :
  a2b_finish (a2b_base64_loop (b64encode bin) 0 0 0 acc) = inr (acc ++ bin).
Proof.
  revert acc. induction bin as [| b1 | b1 b2 | b1 b2 b3 rest IH] using list_ind3;
    intros acc.
  - cbn. rewrite app_nil_r. reflexivity.
  - pose proof (byte_to_Z_range b1) as H1.
    cbn [b64encode]. cbv zeta.
    rewrite !loop_data by (bits_to_arith; divmod).
    cbn [Z.eqb Pos.eqb].
    rewrite loop_pad_skip by lia. rewrite loop_pad_done by lia.
    cbn [a2b_finish]. do 3 f_equal.
    apply Z_to_byte_eq. bits_to_arith. divmod.
  - pose proof (byte_to_Z_range b1) as H1.
    pose proof (byte_to_Z_range b2) as H2.
    cbn [b64encode]. cbv zeta.
    rewrite !loop_data by (bits_to_arith; divmod).
    cbn [Z.eqb Pos.eqb].
    rewrite loop_pad_done by lia.
    cbn [a2b_finish]. rewrite <- app_assoc. cbn [app].
    do 2 f_equal. f_equal; [| f_equal];
      apply Z_to_byte_eq; bits_to_arith; divmod.
  - cbn [b64encode]. cbv zeta. rewrite loop_quad.
    rewrite IH. rewrite <- app_assoc. reflexivity.
Qed.

(** C8.  For every byte sequence, [b64decode] of its [b64encode] returns
    (it does not raise) exactly the original bytes. *)
Theorem b64decode_b64encode (bin : list byte) :
  b64decode (b64encode bin) = inr bin.
Proof.
  unfold b64decode, a2b_base64. apply (loop_b64encode bin []).
Qed.

(** *** What the decoder skips, and how much it writes *)

Lemma loop_skips_insignificant ascii_data quad_pos leftchar pads bin :
  a2b_base64_loop (List.filter significant ascii_data) quad_pos leftchar pads bin
  = a2b_base64_loop ascii_data quad_pos leftchar pads bin.
Proof.
  revert quad_pos leftchar pads bin.
  induction ascii_data as [| c rest IH]; intros quad_pos leftchar pads bin.
  - reflexivity.
  - cbn [List.filter]. unfold significant at 1.
    destruct (Byte.eqb c BASE64_PAD) eqn:Epad; cbn [orb].
    + cbn [a2b_base64_loop]. rewrite Epad.
      destruct (2 <=? quad_pos); [| apply IH].
      cbv zeta. destruct (4 <=? quad_pos + (pads + 1)); [reflexivity | apply IH].
    + rewrite Z.ltb_antisym.
      destruct (64 <=? table_a2b_base64 c) eqn:Etab; cbn [negb].
      * cbn [a2b_base64_loop]. rewrite Epad. cbv zeta. rewrite Etab. apply IH.
      * cbn [a2b_base64_loop]. rewrite Epad. cbv zeta. rewrite Etab.
        destruct (quad_pos =? 0); [apply IH |].
        destruct (quad_pos =? 1); [apply IH |].
        destruct (quad_pos =? 2); apply IH.
Qed.

(** X12.  [b64decode] gives the same bytes, or the same error, on a payload
    and on the payload without its characters that are neither in the
    alphabet nor the pad character: such characters are dropped, never
    rejected. *)
Theorem b64decode_skips_insignificant (s : list byte) :
  b64decode (List.filter significant s) = b64decode s.
Proof.
  unfold b64decode, a2b_base64. rewrite loop_skips_insignificant. reflexivity.
Qed.

Lemma loop_written_bound ascii_data quad_pos leftchar pads bin :
  0 <= quad_pos <= 3 ->
  4 * Z.of_nat (length (a2b_written
                          (a2b_base64_loop ascii_data quad_pos leftchar pads bin)))
  <= 4 * Z.of_nat (length bin) + quad_credit quad_pos
     + 3 * Z.of_nat (length ascii_data).
Proof.
  revert quad_pos leftchar pads bin.
  induction ascii_data as [| c rest IH]; intros quad_pos leftchar pads bin Hq.
  - cbn. unfold quad_credit. destruct (quad_pos =? 0); lia.
  - cbn [a2b_base64_loop]. rewrite length_cons, Nat2Z.inj_succ.
    destruct (Byte.eqb c BASE64_PAD).
    + destruct (2 <=? quad_pos).
      * cbv zeta. destruct (4 <=? quad_pos + (pads + 1)).
        -- cbn [a2b_written]. unfold quad_credit.
           destruct (quad_pos =? 0); lia.
        -- specialize (IH quad_pos leftchar (pads + 1) bin Hq). lia.
      * specialize (IH quad_pos leftchar pads bin Hq). lia.
    + cbv zeta. destruct (64 <=? table_a2b_base64 c).
      * specialize (IH quad_pos leftchar pads bin Hq). lia.
      * destruct (quad_pos =? 0) eqn:E0.
        { apply Z.eqb_eq in E0. subst quad_pos.
          match goal with |- context [a2b_base64_loop rest 1 ?l 0 bin] =>
            specialize (IH 1 l 0 bin) end.
          unfold quad_credit in *. cbn in *. lia. }
        destruct (quad_pos =? 1) eqn:E1.
        { apply Z.eqb_eq in E1. subst quad_pos.
          match goal with |- context [a2b_base64_loop rest 2 ?l 0 ?b] =>
            specialize (IH 2 l 0 b) end.
          rewrite length_app in IH. unfold quad_credit in *. cbn in *. lia. }
        destruct (quad_pos =? 2) eqn:E2.
        { apply Z.eqb_eq in E2. subst quad_pos.
          match goal with |- context [a2b_base64_loop rest 3 ?l 0 ?b] =>
            specialize (IH 3 l 0 b) end.
          rewrite length_app in IH. unfold quad_credit in *. cbn in *. lia. }
        apply Z.eqb_neq in E0, E1, E2.
        assert (quad_pos = 3) as -> by lia.
        match goal with |- context [a2b_base64_loop rest 0 0 0 ?b] =>
          specialize (IH 0 0 0 b) end.
        rewrite length_app in IH. unfold quad_credit in *. cbn in *. lia.
Qed.

(** X13.  The bytes [b64decode] returns are at most three for every four
    characters of the payload. *)
Theorem b64decode_length_bound (s bin : list byte) :
  b64decode s = inr bin ->
  4 * Z.of_nat (length bin) <= 3 * Z.of_nat (length s).
Proof.
  unfold b64decode, a2b_base64. intros H.
  pose proof (loop_written_bound s 0 0 0 [] ltac:(lia)) as Hb.
  destruct (a2b_base64_loop s 0 0 0 []) as [out | quad_pos out];
    cbn [a2b_finish a2b_written] in *.
  - injection H as ->. cbn in Hb. lia.
  - destruct (quad_pos =? 0); [| destruct (quad_pos =? 1); discriminate H].
    injection H as ->. cbn in Hb. lia.
Qed.

End Base64Facts.

(* ===================================================================== *)
(** ** Facts about the script *)
(* ===================================================================== *)

Section ScriptFacts.

Context {sdk : SDK}.

Local Notation "x <- c1 ;; c2" := (bind c1 (fun x => c2))
  (at level 100, c1 at next level, right associativity).
Local Notation "c1 ;; c2" := (bind c1 (fun _ => c2))
  (at level 100, right associativity).

(** *** Computations that [st.stop()] never interrupts *)

Lemma never_stops_ret {A} (a : A) : never_stops (ret a).
Proof. intros w w' H. discriminate H. Qed.

Lemma never_stops_raise {A} (e : exn) : never_stops (@raise _ A e).
Proof. intros w w' H. discriminate H. Qed.

Lemma never_stops_lift {A} (r : exn + A) : never_stops (lift r).
Proof. destruct r; [apply never_stops_raise | apply never_stops_ret]. Qed.

Lemma never_stops_show (e : element) : never_stops (show e).
Proof. intros w w' H. discriminate H. Qed.

Lemma never_stops_bind {A B} (c : M A) (k : A -> M B) :
  never_stops c -> (forall a, never_stops (k a)) -> never_stops (bind c k).
Proof.
  intros Hc Hk w w' H. unfold bind in H.
  destruct (c w) as [w1 [sig | a]] eqn:E.
  - injection H as -> ->. exact (Hc _ _ E).
  - exact (Hk a _ _ H).
Qed.

Lemma never_stops_model_generate_content model prompt config :
  never_stops (model_generate_content model prompt config).
Proof.
  intros w w' H. unfold model_generate_content in H.
  destruct (generate_content _ _); discriminate H.
Qed.

Lemma never_stops_try_except {A} (body : M A) cls handler :
  never_stops body -> (forall e, never_stops (handler e)) ->
  never_stops (try_except body cls handler).
Proof.
  intros Hb Hh w w' H. unfold try_except in H.
  destruct (body w) as [w1 [[e |] | a]] eqn:E.
  - destruct (issubclass _ _).
    + exact (Hh e _ _ H).
    + discriminate H.
  - exact (Hb _ _ E).
  - discriminate H.
Qed.

Create HintDb never_stops.
#[local] Hint Resolve never_stops_ret never_stops_raise never_stops_lift
  never_stops_show never_stops_bind never_stops_model_generate_content
  never_stops_try_except : never_stops.

Lemma never_stops_show_part part : never_stops (show_part part).
Proof.
  unfold show_part. destruct (str_bool _); [auto with never_stops |].
  destruct (inline_data part) as [blob |]; [| auto with never_stops].
  destruct (Blob_bool blob); auto 10 with never_stops.
Qed.

Lemma never_stops_show_parts ps : never_stops (show_parts ps).
Proof.
  induction ps as [| part rest IH]; cbn [show_parts].
  - auto with never_stops.
  - apply never_stops_bind; [apply never_stops_show_part | intros _; exact IH].
Qed.

Lemma never_stops_show_response response : never_stops (show_response response).
Proof.
  unfold show_response, first_candidate_parts.
  apply never_stops_bind.
  - destruct (candidates response); auto with never_stops.
  - intros ps. apply never_stops_show_parts.
Qed.

#[local] Hint Resolve never_stops_show_response : never_stops.

Lemma never_stops_generate_text_body q : never_stops (generate_text_body q).
Proof. unfold generate_text_body. auto 10 with never_stops. Qed.

Lemma never_stops_generate_configured_body q mt t :
  never_stops (generate_configured_body q mt t).
Proof.
  unfold generate_configured_body, types_GenerateContentConfig.
  auto 12 with never_stops.
Qed.

Lemma never_stops_generate_image_body q : never_stops (generate_image_body q).
Proof.
  unfold generate_image_body, types_GenerateContentConfig.
  auto 12 with never_stops.
Qed.

(** *** [try ... except Exception] *)

(** A body that is never stopped, under a handler for [Exception] that
    ends normally, ends normally. *)
Lemma try_except_Exception_handled (body : M unit) (handler : exn -> M unit) w :
  never_stops body ->
  (forall e w1, exists w2, handler e w1 = (w2, inr tt)) ->
  exists w', try_except body Exception handler w = (w', inr tt).
Proof.
  intros Hb Hh. unfold try_except.
  destruct (body w) as [w1 [[e |] | []]] eqn:E.
  - cbn [issubclass]. apply Hh.
  - destruct (Hb _ _ E).
  - now exists w1.
Qed.

Lemma try_except_Exception_raise {A} (body : M A) handler w w1 e :
  body w = (w1, inl (Raise e)) ->
  try_except body Exception handler w = handler e w1.
Proof. intros E. unfold try_except. rewrite E. reflexivity. Qed.

(** *** The loop over the parts *)

Lemma show_parts_cons_return part rest w w1 :
  show_part part w = (w1, inr tt) ->
  show_parts (part :: rest) w = show_parts rest w1.
Proof. intros E. cbn [show_parts]. unfold bind. rewrite E. reflexivity. Qed.

Lemma show_parts_cons_raise part rest w w1 sig :
  show_part part w = (w1, inl sig) ->
  show_parts (part :: rest) w = (w1, inl sig).
Proof. intros E. cbn [show_parts]. unfold bind. rewrite E. reflexivity. Qed.

Lemma show_parts_app_return before after w w1 :
  show_parts before w = (w1, inr tt) ->
  show_parts (before ++ after) w = show_parts after w1.
Proof.
  revert w. induction before as [| part rest IH]; intros w E.
  - cbn in E. injection E as ->. reflexivity.
  - cbn [app]. destruct (show_part part w) as [w2 [sig | []]] eqn:Ep.
    + rewrite (show_parts_cons_raise _ _ _ _ _ Ep) in E. discriminate E.
    + rewrite (show_parts_cons_return _ _ _ _ Ep) in E.
      rewrite (show_parts_cons_return _ _ _ _ Ep). apply IH, E.
Qed.

(** One turn of the loop body: what it adds to the page is [shown_for]
    the part when it returns and nothing when it raises; it issues no call. *)
Lemma show_part_spec part w :
  (show_part part w = (with_shown w (shown_for part), inr tt))
  \/ (exists e, show_part part w = (w, inl (Raise e)) /\ shown_for part = []).
Proof.
  unfold show_part, shown_for.
  destruct (str_bool (text part)); [left; reflexivity |].
  assert (Hskip : ret tt w = (with_shown w [], inr tt)).
  { unfold ret, with_shown. rewrite app_nil_r. now destruct w. }
  destruct (inline_data part) as [blob |]; [| left; exact Hskip].
  destruct (Blob_bool blob); [| left; exact Hskip].
  unfold bind, lift.
  destruct (Base64.b64decode (data blob)) as [e | image_data];
    [right; exists e; split; reflexivity |].
  cbn. destruct (Image_open image_data) as [e | image];
    [right; exists e; split; reflexivity |].
  left. reflexivity.
Qed.

Lemma with_shown_with_shown w xs ys :
  with_shown (with_shown w xs) ys = with_shown w (xs ++ ys).
Proof. unfold with_shown. cbn. now rewrite app_assoc. Qed.

Lemma with_shown_nil w : with_shown w [] = w.
Proof. unfold with_shown. rewrite app_nil_r. now destruct w. Qed.

(** The loop shows the parts of a prefix of the sequence, in their order,
    and the whole sequence when it returns. *)
Lemma show_parts_spec ps w :
  exists k : nat,
    (k <= length ps)%nat
    /\ fst (show_parts ps w) = with_shown w (flat_map shown_for (firstn k ps))
    /\ (snd (show_parts ps w) = inr tt -> k = length ps).
Proof.
  revert w. induction ps as [| part rest IH]; intros w.
  - exists 0%nat. cbn. rewrite with_shown_nil. auto.
  - destruct (show_part_spec part w) as [E | (e & E & Hnil)].
    + rewrite (show_parts_cons_return _ _ _ _ E).
      destruct (IH (with_shown w (shown_for part))) as (k & Hk & Hpage & Hret).
      exists (S k). cbn [length firstn flat_map].
      rewrite Hpage, with_shown_with_shown.
      repeat split; [lia | auto].
    + rewrite (show_parts_cons_raise _ _ _ _ _ E).
      exists 0%nat. cbn. rewrite with_shown_nil.
      repeat split; [lia | discriminate].
Qed.

(** C1.  A response whose first candidate holds the text part "a" and then
    an inline PNG image with a payload that decodes and opens puts on the
    page the text and then the image opened from the decoded bytes, these
    two and in this order.  For every response with a candidate, what the
    loop adds to the page is what the parts of a prefix of the first
    candidate's sequence show, part after part in the order of the
    sequence, and of the whole sequence when the loop returns. *)
Theorem show_response_in_order :
  (forall others payload image_data image w,
      Base64.b64decode payload = inr image_data ->
      Image_open image_data = inr image ->
      show_response
        (mk_Response
           (mk_Candidate
              (mk_Content
                 [mk_Part "a" None;
                  mk_Part "" (Some (mk_Blob "image/png" payload))])
              :: others)) w
      = (with_shown w
           [st_write "Model's description/text: a";
            st_image image "Generated Image" true],
         inr tt))
  /\ (forall candidate others w,
         let ps := parts (content candidate) in
         let r := show_response (mk_Response (candidate :: others)) w in
         exists k : nat,
           (k <= length ps)%nat
           /\ fst r = with_shown w (flat_map shown_for (firstn k ps))
           /\ (snd r = inr tt -> k = length ps)).
Proof.
  split.
  - intros others payload image_data image w Hdec Hopen.
    unfold show_response, first_candidate_parts, bind, ret. cbn.
    unfold bind, lift, show, ret, with_shown. cbn.
    rewrite Hdec. cbn. rewrite Hopen. cbn.
    rewrite <- app_assoc. reflexivity.
  - intros candidate others w ps r. subst r.
    unfold show_response, first_candidate_parts, bind, ret. cbn.
    apply show_parts_spec.
Qed.

(** *** The response loop at its two failures *)

(** C2.  On a response with no candidate the response loop raises at
    [candidates[0]], an [IndexError], before it looks at any part, and
    leaves the page, the calls and the key as they were: it shows no text
    and no image. *)
Theorem no_candidates_no_content response w :
  candidates response = [] ->
  show_response response w
  = (w, inl (Raise (mk_exn IndexError "list index out of range"))).
Proof.
  intros Hnone. unfold show_response, first_candidate_parts, bind.
  rewrite Hnone. reflexivity.
Qed.

Lemma b64decode_rejects_some_data payload e :
  Base64.b64decode payload = inl e -> payload <> [].
Proof. intros H ->. discriminate H. Qed.

(** A blob whose payload [b64decode] rejects has data, so it is true. *)
Lemma Blob_bool_rejected blob e :
  Base64.b64decode (data blob) = inl e -> Blob_bool blob = true.
Proof.
  intros H. apply b64decode_rejects_some_data in H. unfold Blob_bool.
  destruct (data blob); [contradiction | apply orb_true_r].
Qed.

(** C3, as the script has it.  An inline image without text whose payload
    [b64decode] rejects ends the loop: what the parts before it showed
    stays, the decoding error leaves the loop, and the parts after it are
    not looked at. *)
Theorem decode_error_ends_the_loop before blob after e w w1 :
  show_parts before w = (w1, inr tt) ->
  Base64.b64decode (data blob) = inl e ->
  show_parts (before ++ mk_Part "" (Some blob) :: after) w
  = (w1, inl (Raise e)).
Proof.
  intros Hbefore Hdec.
  rewrite (show_parts_app_return _ _ _ _ Hbefore).
  apply show_parts_cons_raise.
  unfold show_part. cbn. rewrite (Blob_bool_rejected _ _ Hdec).
  unfold bind, lift. rewrite Hdec. reflexivity.
Qed.

(** C4, on the script.  When the key cannot be read from the secrets (no
    secrets file, or no such entry), the subscript raises an exception that
    is no [AttributeError]: the [except AttributeError] clause does not
    apply, neither [st.error] nor [st.stop] runs, and the exception leaves
    the script with the page and the calls untouched. *)
Theorem missing_key_escapes_the_handler secrets s w :
  configured_key secrets = None ->
  script secrets s w = (w, inl (Raise (missing_key_error secrets))).
Proof.
  intros Hkey. unfold script, configure_api_key, bind at 1, try_except.
  unfold secrets_getitem, configured_key in *.
  destruct secrets as [entries |].
  - unfold bind at 1. rewrite Hkey. reflexivity.
  - reflexivity.
Qed.

(** C5, on the script.  With a prompt in the text area and the button
    pressed, the configured-text section never gets to the call: after the
    spinner, looking up [types.GenerateContentConfig] raises an
    [AttributeError], which the handler shows as its error message.  No
    request is issued, so the two slider values reach no call. *)
Theorem configured_options_never_reach_the_api s q max_tokens temperature w :
  explain_ai_query_in s = Some q ->
  str_bool q = true ->
  max_tokens_in s = Some max_tokens ->
  temperature_in s = Some temperature ->
  generate_configured_clicked s = true ->
  configured_section s w
  = (with_shown w
       (configured_form
        ++ [st_spinner "Generating configured text...";
            st_error "Error generating configured text: module 'google.generativeai.types' has no attribute 'GenerateContentConfig'"]),
     inr tt).
Proof.
  intros Hq Hp Hm Ht Hc.
  unfold configured_section, widget, bind, show, ret. cbn.
  rewrite Hq, Hm, Ht, Hc. unfold value_or, generate_configured_text.
  rewrite Hp.
  unfold try_except, generate_configured_body, types_GenerateContentConfig,
    bind, show, raise. cbn.
  unfold with_shown, configured_form. cbn. rewrite <- !app_assoc. reflexivity.
Qed.

(** C6, as the script has it.  A part with neither text nor inline data
    falls through both tests of the loop body: nothing is shown or recorded
    for it, nothing is raised, and the loop goes on with the next part, so
    that a sequence with such a part anywhere in it runs as the sequence
    without it. *)
Theorem unrecognized_part_is_skipped_silently before after w :
  show_part (mk_Part "" None) w = (w, inr tt)
  /\ show_parts (before ++ mk_Part "" None :: after) w
     = show_parts (before ++ after) w.
Proof.
  split; [reflexivity |].
  revert w. induction before as [| part rest IH]; intros w.
  - reflexivity.
  - cbn [app show_parts]. unfold bind.
    destruct (show_part part w) as [w1 [sig | []]].
    + reflexivity.
    + apply IH.
Qed.

(** *** Returning, and the calls issued *)

Lemma bind_return {A B} (c : M A) (k : A -> M B) w w1 a :
  c w = (w1, inr a) -> bind c k w = k a w1.
Proof. intros E. unfold bind. rewrite E. reflexivity. Qed.

Lemma bind_show {B} (e : element) (k : unit -> M B) w :
  bind (show e) k w = k tt (with_shown w [e]).
Proof. reflexivity. Qed.

Lemma bind_widget {A B} (e : element) (value : option A) (default : A)
    (k : A -> M B) w :
  bind (widget e value default) k w
  = k (value_or value default) (with_shown w [e]).
Proof. reflexivity. Qed.

(** Runs the page-only steps at the head of a computation. *)
Ltac run_page :=
  repeat (first [rewrite bind_show | rewrite bind_widget]; cbv beta).

Lemma issues_ret {A} (a : A) : issues (ret a) [].
Proof. intros w. cbn. now rewrite app_nil_r. Qed.

Lemma issues_raise {A} (e : exn) : issues (@raise _ A e) [].
Proof. intros w. cbn. now rewrite app_nil_r. Qed.

Lemma issues_lift {A} (r : exn + A) : issues (lift r) [].
Proof. destruct r; [apply issues_raise | apply issues_ret]. Qed.

Lemma issues_show (e : element) : issues (show e) [].
Proof. intros w. cbn. now rewrite app_nil_r. Qed.

Lemma issues_model_generate_content model prompt config :
  issues (model_generate_content model prompt config)
    [mk_Request model prompt config].
Proof.
  intros w. unfold model_generate_content.
  destruct (generate_content _ _); reflexivity.
Qed.

(** A computation followed by one that issues nothing. *)
Lemma issues_bind_nil {A B} (c : M A) (k : A -> M B) reqs :
  issues c reqs -> (forall a, issues (k a) []) -> issues (bind c k) reqs.
Proof.
  intros Hc Hk w. specialize (Hc w). unfold bind.
  destruct (c w) as [w1 [sig | a]]; cbn in *.
  - exact Hc.
  - rewrite (Hk a w1), app_nil_r. exact Hc.
Qed.

(** [show] followed by a computation. *)
Lemma issues_show_then {B} (e : element) (k : unit -> M B) reqs :
  issues (k tt) reqs -> issues (bind (show e) k) reqs.
Proof. intros Hk w. rewrite bind_show. rewrite (Hk _). reflexivity. Qed.

(** A raise, whatever follows it. *)
Lemma issues_raise_then {A B} (e : exn) (k : A -> M B) :
  issues (bind (raise e) k) [].
Proof. intros w. cbn. now rewrite app_nil_r. Qed.

Lemma issues_try_except {A} (body : M A) cls handler reqs :
  issues body reqs -> (forall e, issues (handler e) []) ->
  issues (try_except body cls handler) reqs.
Proof.
  intros Hb Hh w. specialize (Hb w). unfold try_except.
  destruct (body w) as [w1 [[e |] | a]]; cbn in *; try exact Hb.
  destruct (issubclass _ _); cbn; [| exact Hb].
  rewrite (Hh e w1), app_nil_r. exact Hb.
Qed.

Lemma issues_show_parts ps : issues (show_parts ps) [].
Proof.
  intros w. destruct (show_parts_spec ps w) as (k & _ & E & _).
  rewrite E. cbn. now rewrite app_nil_r.
Qed.

Lemma issues_show_response response : issues (show_response response) [].
Proof.
  unfold show_response, first_candidate_parts.
  destruct (candidates response) as [| candidate others].
  - intros w. cbn. now rewrite app_nil_r.
  - intros w. apply (issues_show_parts _ w).
Qed.

Create HintDb issues.
#[local] Hint Resolve issues_ret issues_raise issues_lift issues_show
  issues_model_generate_content issues_bind_nil issues_show_then
  issues_raise_then issues_try_except issues_show_response : issues.

Lemma issues_generate_text_body q :
  issues (generate_text_body q) [mk_Request "gemini-pro" q None].
Proof. unfold generate_text_body. auto 10 with issues. Qed.

Lemma issues_generate_configured_body q max_tokens temperature :
  issues (generate_configured_body q max_tokens temperature) [].
Proof.
  unfold generate_configured_body, types_GenerateContentConfig.
  auto 10 with issues.
Qed.

Lemma issues_generate_image_body q : issues (generate_image_body q) [].
Proof.
  unfold generate_image_body, types_GenerateContentConfig.
  auto 10 with issues.
Qed.

(** The three handlers end normally whatever happens in their [try]. *)
Lemma generate_text_response_returns q w :
  exists w', generate_text_response q w = (w', inr tt).
Proof.
  unfold generate_text_response. destruct (str_bool q).
  - apply try_except_Exception_handled.
    + apply never_stops_generate_text_body.
    + intros e w1. eexists. reflexivity.
  - eexists. reflexivity.
Qed.

Lemma generate_configured_text_returns q max_tokens temperature w :
  exists w', generate_configured_text q max_tokens temperature w = (w', inr tt).
Proof.
  unfold generate_configured_text. destruct (str_bool q).
  - apply try_except_Exception_handled.
    + apply never_stops_generate_configured_body.
    + intros e w1. eexists. reflexivity.
  - eexists. reflexivity.
Qed.

Lemma generate_image_returns q w :
  exists w', generate_image q w = (w', inr tt).
Proof.
  unfold generate_image. destruct (str_bool q).
  - apply try_except_Exception_handled.
    + apply never_stops_generate_image_body.
    + intros e w1. eexists. reflexivity.
  - eexists. reflexivity.
Qed.

(** The text handler issues one call on a prompt that is not empty; the
    other two handlers issue none. *)
Lemma issues_generate_text_response q :
  issues (generate_text_response q)
    (if str_bool q then [mk_Request "gemini-pro" q None] else []).
Proof.
  unfold generate_text_response. destruct (str_bool q).
  - apply issues_try_except; [apply issues_generate_text_body |].
    intros e. apply issues_show.
  - apply issues_show.
Qed.

Lemma issues_generate_configured_text q max_tokens temperature :
  issues (generate_configured_text q max_tokens temperature) [].
Proof.
  unfold generate_configured_text. destruct (str_bool q).
  - apply issues_try_except; [apply issues_generate_configured_body |].
    intros e. apply issues_show.
  - apply issues_show.
Qed.

Lemma issues_generate_image q : issues (generate_image q) [].
Proof.
  unfold generate_image. destruct (str_bool q).
  - apply issues_try_except; [apply issues_generate_image_body |].
    intros e. auto with issues.
  - apply issues_show.
Qed.

(** A section returns, having issued the calls of its handler if the
    button was pressed. *)
Lemma text_section_spec s w :
  exists w', text_section s w = (w', inr tt)
             /\ calls w' = calls w ++ text_requests s.
Proof.
  unfold text_section, text_requests. run_page. cbn [value_or].
  destruct (generate_text_clicked s); cbn [andb].
  - match goal with |- context [generate_text_response ?q ?w1] =>
      destruct (generate_text_response_returns q w1) as [w' E];
      pose proof (issues_generate_text_response q w1) as Hcalls
    end.
    rewrite E in *. exists w'. split; [reflexivity | exact Hcalls].
  - eexists. split; [reflexivity |]. cbn. now rewrite app_nil_r.
Qed.

Lemma configured_section_spec s w :
  exists w', configured_section s w = (w', inr tt) /\ calls w' = calls w.
Proof.
  unfold configured_section. run_page. cbn [value_or].
  destruct (generate_configured_clicked s).
  - match goal with |- context [generate_configured_text ?q ?m ?t ?w1] =>
      destruct (generate_configured_text_returns q m t w1) as [w' E];
      pose proof (issues_generate_configured_text q m t w1) as Hcalls
    end.
    rewrite E in *. exists w'. split; [reflexivity |].
    cbn in Hcalls. now rewrite app_nil_r in Hcalls.
  - eexists. split; reflexivity.
Qed.

Lemma image_section_spec s w :
  exists w', image_section s w = (w', inr tt) /\ calls w' = calls w.
Proof.
  unfold image_section. run_page. cbn [value_or].
  destruct (generate_image_clicked s).
  - match goal with |- context [generate_image ?q ?w1] =>
      destruct (generate_image_returns q w1) as [w' E];
      pose proof (issues_generate_image q w1) as Hcalls
    end.
    rewrite E in *. exists w'. split; [reflexivity |].
    cbn in Hcalls. now rewrite app_nil_r in Hcalls.
  - eexists. split; reflexivity.
Qed.

Lemma configure_api_key_found secrets key w :
  configured_key secrets = Some key ->
  configure_api_key secrets w
  = (mk_world (page w) (calls w) (Some key), inr tt).
Proof.
  intros Hkey.
  unfold configure_api_key, try_except, bind, secrets_getitem.
  unfold configured_key in Hkey.
  destruct secrets as [entries |]; [| discriminate Hkey].
  rewrite Hkey. reflexivity.
Qed.

(** A run with a key goes through the three sections to the closing note;
    its calls are those of the text section. *)
Lemma script_spec secrets key s w :
  configured_key secrets = Some key ->
  exists w',
    script secrets s w
    = (with_shown w' [st_markdown "---"; closing_note], inr tt)
    /\ calls w' = calls w ++ text_requests s.
Proof.
  intros Hkey. unfold script.
  rewrite (bind_return _ _ _ _ _ (configure_api_key_found _ _ w Hkey)).
  run_page.
  match goal with |- context [bind (text_section s) _ ?w1] =>
    destruct (text_section_spec s w1) as (w2 & E2 & C2) end.
  rewrite (bind_return _ _ _ _ _ E2). run_page.
  match goal with |- context [bind (configured_section s) _ ?w1] =>
    destruct (configured_section_spec s w1) as (w3 & E3 & C3) end.
  rewrite (bind_return _ _ _ _ _ E3). run_page.
  match goal with |- context [bind (image_section s) _ ?w1] =>
    destruct (image_section_spec s w1) as (w4 & E4 & C4) end.
  rewrite (bind_return _ _ _ _ _ E4). run_page.
  exists w4. split.
  - unfold show, with_shown. cbn. rewrite <- app_assoc. reflexivity.
  - cbn in *. now rewrite C4, C3, C2.
Qed.

(** C7.  Each of the three handlers ends normally whatever its prompt, the
    API, the accessor and the image library do: nothing raised in its [try]
    leaves it.  When the [try] of a handler raises [e], the handler shows
    the error message made from [e] after what the [try] had shown.  And a
    run of the script with a key goes through every section to the closing
    note, whether or not a handler met an error on the way; the calls it
    has issued are those of the text section. *)
Theorem handlers_catch_every_exception :
  (forall q w, exists w', generate_text_response q w = (w', inr tt))
  /\ (forall q max_tokens temperature w,
         exists w',
           generate_configured_text q max_tokens temperature w = (w', inr tt))
  /\ (forall q w, exists w', generate_image q w = (w', inr tt))
  /\ (forall q w w1 e,
         str_bool q = true ->
         generate_text_body q w = (w1, inl (Raise e)) ->
         generate_text_response q w
         = (with_shown w1
              [st_error ("Error generating text: " ++ exn_str e)%string],
            inr tt))
  /\ (forall q max_tokens temperature w w1 e,
         str_bool q = true ->
         generate_configured_body q max_tokens temperature w
           = (w1, inl (Raise e)) ->
         generate_configured_text q max_tokens temperature w
         = (with_shown w1
              [st_error ("Error generating configured text: " ++ exn_str e)%string],
            inr tt))
  /\ (forall q w w1 e,
         str_bool q = true ->
         generate_image_body q w = (w1, inl (Raise e)) ->
         generate_image q w
         = (with_shown w1
              [st_error ("Error generating image: " ++ exn_str e)%string;
               st_info "Ensure you are using a model capable of image generation (e.g., `gemini-1.5-flash`)."],
            inr tt))
  /\ (forall secrets key s w,
         configured_key secrets = Some key ->
         exists w',
           script secrets s w
           = (with_shown w' [st_markdown "---"; closing_note], inr tt)
           /\ calls w' = calls w ++ text_requests s).
Proof.
  split; [exact generate_text_response_returns |].
  split; [exact generate_configured_text_returns |].
  split; [exact generate_image_returns |].
  split; [| split; [| split]].
  - intros q w w1 e Hq E. unfold generate_text_response. rewrite Hq.
    rewrite (try_except_Exception_raise _ _ _ _ _ E). reflexivity.
  - intros q max_tokens temperature w w1 e Hq E.
    unfold generate_configured_text. rewrite Hq.
    rewrite (try_except_Exception_raise _ _ _ _ _ E). reflexivity.
  - intros q w w1 e Hq E. unfold generate_image. rewrite Hq.
    rewrite (try_except_Exception_raise _ _ _ _ _ E).
    unfold bind, show, with_shown. cbn. rewrite <- app_assoc. reflexivity.
  - exact script_spec.
Qed.

(** C9.  Each handler run on an empty prompt shows its warning and nothing
    else, and issues no call; so does each section of the script when the
    session holds an empty prompt and the pressed button. *)
Theorem empty_prompt_only_warns :
  (forall w,
      generate_text_response "" w
      = (with_shown w [st_warning "Please enter a question."], inr tt))
  /\ (forall max_tokens temperature w,
         generate_configured_text "" max_tokens temperature w
         = (with_shown w [st_warning "Please enter a topic to explain."],
            inr tt))
  /\ (forall w,
         generate_image "" w
         = (with_shown w [st_warning "Please enter an image description."],
            inr tt))
  /\ (forall s w,
         text_query_in s = Some ""%string ->
         generate_text_clicked s = true ->
         text_section s w
         = (with_shown w
              [st_header "Text Generation";
               st_write "Ask Gemini a question and get a text response.";
               st_text_input "Your question:";
               st_button "Generate Text Response";
               st_warning "Please enter a question."],
            inr tt))
  /\ (forall s w,
         explain_ai_query_in s = Some ""%string ->
         generate_configured_clicked s = true ->
         configured_section s w
         = (with_shown w
              [st_header "Configurable Text Generation";
               st_write "Generate text with custom parameters like max output tokens and temperature.";
               st_text_area "Topic to explain:";
               st_slider "Max Output Tokens:" 50 500;
               st_slider_float "Temperature (creativity):"
                 0.0%float 2.0%float 0x1.999999999999ap-4%float;
               st_button "Generate Configured Text";
               st_warning "Please enter a topic to explain."],
            inr tt))
  /\ (forall s w,
         image_prompt_in s = Some ""%string ->
         generate_image_clicked s = true ->
         image_section s w
         = (with_shown w
              [st_header "Image Generation";
               st_write "Describe an image you want Gemini to create.";
               st_text_area "Describe the image:";
               st_button "Generate Image";
               st_warning "Please enter an image description."],
            inr tt)).
Proof.
  repeat split.
  - intros s w Hq Hc. unfold text_section. run_page. rewrite Hq, Hc.
    cbn. unfold show, with_shown. cbn. rewrite <- !app_assoc. reflexivity.
  - intros s w Hq Hc. unfold configured_section. run_page. rewrite Hq, Hc.
    cbn. unfold show, with_shown. cbn. rewrite <- !app_assoc. reflexivity.
  - intros s w Hq Hc. unfold image_section. run_page. rewrite Hq, Hc.
    cbn. unfold show, with_shown. cbn. rewrite <- !app_assoc. reflexivity.
Qed.

Lemma shown_for_length part : (length (shown_for part) <= 1)%nat.
Proof.
  unfold shown_for. destruct (str_bool _); [cbn; lia |].
  destruct (inline_data part) as [blob |]; [| cbn; lia].
  destruct (Blob_bool blob); [| cbn; lia].
  destruct (Base64.b64decode _) as [e | image_data]; [cbn; lia |].
  destruct (Image_open _); cbn; lia.
Qed.

(** C10.  One turn of the loop body adds at most one element to the page.
    For a part with both a text that is not empty and inline data, that
    element is the text; the inline data is not decoded or shown, whatever
    its payload. *)
Theorem at_most_one_element_per_part :
  (forall part w,
      exists shown,
        (length shown <= 1)%nat
        /\ fst (show_part part w) = with_shown w shown)
  /\ (forall t blob w,
         str_bool t = true ->
         show_part (mk_Part t (Some blob)) w
         = (with_shown w [st_write ("Model's description/text: " ++ t)%string],
            inr tt)).
Proof.
  split.
  - intros part w.
    destruct (show_part_spec part w) as [E | (e & E & _)]; rewrite E.
    + exists (shown_for part). split; [apply shown_for_length | reflexivity].
    + exists []. split; [cbn; lia |]. cbn. now rewrite with_shown_nil.
  - intros t blob w Ht. unfold show_part. cbn. rewrite Ht. reflexivity.
Qed.

(** *** The handlers, path by path *)

Lemma str_bool_true q : q <> ""%string -> str_bool q = true.
Proof.
  intros H. unfold str_bool. apply negb_true_iff. now apply String.eqb_neq.
Qed.

(** X1.  When the API answers and [response.text] gives [t], the text
    handler shows the spinner, its success banner and [t], having issued
    its one request, and returns. *)
Theorem text_handlers_show_the_answer q w response t :
  str_bool q = true ->
  generate_content (length (calls w)) (mk_Request "gemini-pro" q None)
    = inr response ->
  response_text response = inr t ->
  generate_text_response q w
  = (with_call
       (with_shown w
          [st_spinner "Generating text..."; st_success "Response:";
           st_write t])
       (mk_Request "gemini-pro" q None),
     inr tt).
Proof.
  intros Hq Hapi Ht.
  unfold generate_text_response. rewrite Hq.
  unfold try_except, generate_text_body, bind, show, model_generate_content.
  cbn. rewrite Hapi. cbn. rewrite Ht. cbn.
  unfold with_call, with_shown. cbn. rewrite <- !app_assoc. reflexivity.
Qed.

(** X2.  When the API answers but [response.text] raises [e], the text
    handler has already shown its success banner: the page gets the
    spinner, the banner and then the error message made from [e]. *)
Theorem text_handlers_banner_before_accessor_error q w response e :
  str_bool q = true ->
  generate_content (length (calls w)) (mk_Request "gemini-pro" q None)
    = inr response ->
  response_text response = inl e ->
  generate_text_response q w
  = (with_call
       (with_shown w
          [st_spinner "Generating text..."; st_success "Response:";
           st_error ("Error generating text: " ++ exn_str e)%string])
       (mk_Request "gemini-pro" q None),
     inr tt).
Proof.
  intros Hq Hapi Ht.
  unfold generate_text_response. rewrite Hq.
  unfold try_except, generate_text_body, bind, show, model_generate_content.
  cbn. rewrite Hapi. cbn. rewrite Ht. cbn.
  unfold with_call, with_shown. cbn. rewrite <- !app_assoc. reflexivity.
Qed.

(** X3.  When the API call of the text handler fails with [e], the handler
    shows its spinner and then the error message made from [e], no success
    banner, and returns; the failed request is the only one it issued. *)
Theorem api_failure_shows_one_error q w e :
  str_bool q = true ->
  generate_content (length (calls w)) (mk_Request "gemini-pro" q None)
    = inl e ->
  generate_text_response q w
  = (with_call
       (with_shown w
          [st_spinner "Generating text...";
           st_error ("Error generating text: " ++ exn_str e)%string])
       (mk_Request "gemini-pro" q None),
     inr tt).
Proof.
  intros Hq Hapi.
  unfold generate_text_response. rewrite Hq.
  unfold try_except, generate_text_body, bind, show, model_generate_content.
  cbn. rewrite Hapi. cbn.
  unfold with_call, with_shown. cbn. rewrite <- !app_assoc. reflexivity.
Qed.

(** X4.  Whatever the API and the accessor do, the text handler run on a
    prompt that is not the empty string issues exactly one request, the one
    to "gemini-pro" with that prompt and no configuration, and never a
    second one. *)
Theorem one_request_per_prompt q w :
  q <> ""%string ->
  calls (fst (generate_text_response q w))
  = calls w ++ [mk_Request "gemini-pro" q None].
Proof.
  intros Hq. pose proof (issues_generate_text_response q w) as H.
  rewrite (str_bool_true q Hq) in H. exact H.
Qed.

(** X7.  On every prompt that is not empty the image handler shows its
    spinner, then the [AttributeError] of [types.GenerateContentConfig] as
    its error message and its hint, and returns: it issues no request and
    never gets to its success banner or to the loop over the parts. *)
Theorem generate_image_never_reaches_the_api q w :
  str_bool q = true ->
  generate_image q w
  = (with_shown w
       [st_spinner "Generating image... This might take a moment...";
        st_error "Error generating image: module 'google.generativeai.types' has no attribute 'GenerateContentConfig'";
        st_info "Ensure you are using a model capable of image generation (e.g., `gemini-1.5-flash`)."],
     inr tt).
Proof.
  intros Hq. unfold generate_image. rewrite Hq.
  unfold try_except, generate_image_body, types_GenerateContentConfig,
    bind, show, raise. cbn.
  unfold with_shown. cbn. rewrite <- !app_assoc. reflexivity.
Qed.

(** *** The loop, part by part *)

Lemma show_part_shows part w :
  part_shows part = true ->
  show_part part w = (with_shown w (shown_for part), inr tt).
Proof.
  unfold part_shows, show_part, shown_for.
  destruct (str_bool (text part)); [reflexivity |]. cbn [orb].
  assert (Hskip : ret tt w = (with_shown w [], inr tt)).
  { unfold ret. now rewrite with_shown_nil. }
  destruct (inline_data part) as [blob |]; [| intros _; exact Hskip].
  destruct (Blob_bool blob); [| intros _; exact Hskip]. cbn [negb orb].
  unfold bind, lift.
  destruct (Base64.b64decode (data blob)) as [e | image_data];
    [discriminate |].
  cbn. destruct (Image_open image_data) as [e | image]; [discriminate |].
  reflexivity.
Qed.

Lemma show_part_raises part w :
  part_shows part = false ->
  exists e, show_part part w = (w, inl (Raise e)).
Proof.
  unfold part_shows, show_part.
  destruct (str_bool (text part)); [discriminate |]. cbn [orb].
  destruct (inline_data part) as [blob |]; [| discriminate].
  destruct (Blob_bool blob); [| discriminate]. cbn [negb orb].
  unfold bind, lift.
  destruct (Base64.b64decode (data blob)) as [e | image_data];
    [intros _; now exists e |].
  cbn. destruct (Image_open image_data) as [e | image]; [| discriminate].
  intros _. now exists e.
Qed.

Lemma show_parts_all_show ps w :
  forallb part_shows ps = true ->
  show_parts ps w = (with_shown w (flat_map shown_for ps), inr tt).
Proof.
  revert w. induction ps as [| part rest IH]; intros w H.
  - cbn. now rewrite with_shown_nil.
  - cbn [forallb] in H. apply andb_true_iff in H as [Hp Hrest].
    rewrite (show_parts_cons_return _ _ _ _ (show_part_shows part w Hp)).
    rewrite (IH _ Hrest), with_shown_with_shown. reflexivity.
Qed.

(** X5.  The loop over the parts returns exactly when every part has a
    text, or inline data that is unset or empty, or inline data that
    decodes and opens; and then the page has grown by what each part
    shows, in order. *)
Theorem show_parts_returns_iff ps w :
  (snd (show_parts ps w) = inr tt <-> forallb part_shows ps = true)
  /\ (forallb part_shows ps = true ->
      show_parts ps w = (with_shown w (flat_map shown_for ps), inr tt)).
Proof.
  split; [| apply show_parts_all_show].
  split; [| intros H; now rewrite (show_parts_all_show ps w H)].
  revert w. induction ps as [| part rest IH]; intros w H.
  - reflexivity.
  - cbn [forallb]. destruct (part_shows part) eqn:Hp.
    + rewrite (show_parts_cons_return _ _ _ _ (show_part_shows part w Hp)) in H.
      cbn [andb]. exact (IH _ H).
    + destruct (show_part_raises part w Hp) as [e E].
      rewrite (show_parts_cons_raise _ _ _ _ _ E) in H. discriminate H.
Qed.

(** X6.  An inline image without text, with a blob that is not empty and
    whose payload decodes to bytes that [Image.open] rejects, ends the loop
    as a payload that does not decode does: what the parts before it
    showed stays, the error of [Image.open] leaves the loop, and the parts
    after it are not looked at. *)
Theorem open_error_ends_the_loop before blob image_data after e w w1 :
  show_parts before w = (w1, inr tt) ->
  Blob_bool blob = true ->
  Base64.b64decode (data blob) = inr image_data ->
  Image_open image_data = inl e ->
  show_parts (before ++ mk_Part "" (Some blob) :: after) w
  = (w1, inl (Raise e)).
Proof.
  intros Hbefore Htrue Hdec Hopen.
  rewrite (show_parts_app_return _ _ _ _ Hbefore).
  apply show_parts_cons_raise.
  unfold show_part. cbn. rewrite Htrue. unfold bind, lift. rewrite Hdec. cbn.
  rewrite Hopen. reflexivity.
Qed.

Lemma show_parts_neither ps w :
  forallb neither ps = true -> show_parts ps w = (w, inr tt).
Proof.
  induction ps as [| part rest IH]; intros H; [reflexivity |].
  cbn [forallb] in H. apply andb_true_iff in H as [Hp Hrest].
  unfold neither in Hp. apply andb_true_iff in Hp as [Ht Hd].
  apply negb_true_iff in Ht.
  assert (E : show_part part w = (w, inr tt)).
  { unfold show_part. rewrite Ht.
    destruct (inline_data part) as [blob |]; [| reflexivity].
    apply negb_true_iff in Hd. rewrite Hd. reflexivity. }
  rewrite (show_parts_cons_return _ _ _ _ E). exact (IH Hrest).
Qed.

(** X8.  When the first candidate has no part, or only parts with no text
    and with inline data that is unset or empty, the response loop returns
    and leaves the page as it was: no text, no image and no error. *)
Theorem response_without_content_shows_nothing response candidate others w :
  candidates response = candidate :: others ->
  forallb neither (parts (content candidate)) = true ->
  show_response response w = (w, inr tt).
Proof.
  intros Hc Hn. unfold show_response, first_candidate_parts, bind.
  rewrite Hc. cbn. exact (show_parts_neither _ w Hn).
Qed.

(** X14.  A part without text whose inline data is a blob with no MIME
    type and no data is false for the loop's test and is skipped like a
    part without inline data: a sequence with such a part anywhere in it
    runs as the sequence without it, and the empty payload is never handed
    to the decoder or to [Image.open]. *)
Theorem empty_blob_is_skipped before after w :
  show_parts (before ++ mk_Part "" (Some (mk_Blob "" [])) :: after) w
  = show_parts (before ++ after) w.
Proof.
  revert w. induction before as [| part rest IH]; intros w.
  - reflexivity.
  - cbn [app show_parts]. unfold bind.
    destruct (show_part part w) as [w1 [sig | []]].
    + reflexivity.
    + apply IH.
Qed.

(** *** A run without a pressed button *)

Lemma text_section_idle s w :
  generate_text_clicked s = false ->
  text_section s w = (with_shown w text_form, inr tt).
Proof.
  intros Hc. unfold text_section. run_page. rewrite Hc. cbn.
  unfold ret, with_shown, text_form. cbn. rewrite <- !app_assoc. reflexivity.
Qed.

Lemma configured_section_idle s w :
  generate_configured_clicked s = false ->
  configured_section s w = (with_shown w configured_form, inr tt).
Proof.
  intros Hc. unfold configured_section. run_page. rewrite Hc. cbn.
  unfold ret, with_shown, configured_form. cbn. rewrite <- !app_assoc.
  reflexivity.
Qed.

Lemma image_section_idle s w :
  generate_image_clicked s = false ->
  image_section s w = (with_shown w image_form, inr tt).
Proof.
  intros Hc. unfold image_section. run_page. rewrite Hc. cbn.
  unfold ret, with_shown, image_form. cbn. rewrite <- !app_assoc. reflexivity.
Qed.

(** X9.  A run with a key in which no button is pressed draws the same
    page whatever the widgets hold, the title, the three forms and the
    closing note, and issues no call. *)
Theorem idle_run_draws_the_forms secrets key s w :
  configured_key secrets = Some key ->
  generate_text_clicked s = false ->
  generate_configured_clicked s = false ->
  generate_image_clicked s = false ->
  script secrets s w
  = (mk_world (page w ++ static_page) (calls w) (Some key), inr tt).
Proof.
  intros Hkey Ht Hc Hi. unfold script.
  rewrite (bind_return _ _ _ _ _ (configure_api_key_found _ _ w Hkey)).
  run_page.
  rewrite (bind_return _ _ _ _ _ (text_section_idle s _ Ht)). run_page.
  rewrite (bind_return _ _ _ _ _ (configured_section_idle s _ Hc)). run_page.
  rewrite (bind_return _ _ _ _ _ (image_section_idle s _ Hi)). run_page.
  unfold show, with_shown, static_page. cbn.
  rewrite <- !app_assoc. reflexivity.
Qed.

(** *** The configured key *)

Lemma keeps_key_ret {A} (a : A) : keeps_key (ret a).
Proof. intros w. reflexivity. Qed.

Lemma keeps_key_raise {A} (e : exn) : keeps_key (@raise _ A e).
Proof. intros w. reflexivity. Qed.

Lemma keeps_key_lift {A} (r : exn + A) : keeps_key (lift r).
Proof. intros w. destruct r; reflexivity. Qed.

Lemma keeps_key_show (e : element) : keeps_key (show e).
Proof. intros w. reflexivity. Qed.

Lemma keeps_key_widget {A} e (value : option A) default :
  keeps_key (widget e value default).
Proof. intros w. reflexivity. Qed.

Lemma keeps_key_model_generate_content model prompt config :
  keeps_key (model_generate_content model prompt config).
Proof.
  intros w. unfold model_generate_content.
  destruct (generate_content _ _); reflexivity.
Qed.

Lemma keeps_key_bind {A B} (c : M A) (k : A -> M B) :
  keeps_key c -> (forall a, keeps_key (k a)) -> keeps_key (bind c k).
Proof.
  intros Hc Hk w. specialize (Hc w). unfold bind.
  destruct (c w) as [w1 [sig | a]]; cbn in *; [exact Hc |].
  now rewrite (Hk a w1).
Qed.

Lemma keeps_key_try_except {A} (body : M A) cls handler :
  keeps_key body -> (forall e, keeps_key (handler e)) ->
  keeps_key (try_except body cls handler).
Proof.
  intros Hb Hh w. specialize (Hb w). unfold try_except.
  destruct (body w) as [w1 [[e |] | a]]; cbn in *; try exact Hb.
  destruct (issubclass _ _); cbn; [| exact Hb].
  now rewrite (Hh e w1).
Qed.

Lemma keeps_key_show_response response : keeps_key (show_response response).
Proof.
  unfold show_response, first_candidate_parts. intros w.
  destruct (candidates response) as [| candidate others]; [reflexivity |].
  unfold bind, ret.
  destruct (show_parts_spec (parts (content candidate)) w) as (k & _ & E & _).
  rewrite E. reflexivity.
Qed.

Create HintDb keeps_key.
#[local] Hint Resolve keeps_key_ret keeps_key_raise keeps_key_lift keeps_key_show
  keeps_key_widget keeps_key_model_generate_content keeps_key_bind
  keeps_key_try_except keeps_key_show_response : keeps_key.

Lemma keeps_key_generate_text_response q :
  keeps_key (generate_text_response q).
Proof.
  unfold generate_text_response, generate_text_body.
  destruct (str_bool q); auto 12 with keeps_key.
Qed.

Lemma keeps_key_generate_configured_text q max_tokens temperature :
  keeps_key (generate_configured_text q max_tokens temperature).
Proof.
  unfold generate_configured_text, generate_configured_body,
    types_GenerateContentConfig.
  destruct (str_bool q); auto 12 with keeps_key.
Qed.

Lemma keeps_key_generate_image q : keeps_key (generate_image q).
Proof.
  unfold generate_image, generate_image_body, types_GenerateContentConfig.
  destruct (str_bool q); auto 12 with keeps_key.
Qed.

#[local] Hint Resolve keeps_key_generate_text_response
  keeps_key_generate_configured_text keeps_key_generate_image : keeps_key.

Lemma keeps_key_if {A} (b : bool) (c d : M A) :
  keeps_key c -> keeps_key d -> keeps_key (if b then c else d).
Proof. now destruct b. Qed.

#[local] Hint Resolve keeps_key_if : keeps_key.

(** X10.  In a run whose secrets hold the key, the key configured at the
    start is the configured key at the end, whatever the session, the API
    and the libraries do in between: no handler touches it. *)
Theorem configured_key_is_kept secrets key s w :
  configured_key secrets = Some key ->
  api_key (fst (script secrets s w)) = Some key.
Proof.
  intros Hkey. unfold script.
  rewrite (bind_return _ _ _ _ _ (configure_api_key_found _ _ w Hkey)).
  match goal with |- api_key (fst (?c ?w1)) = _ =>
    assert (Hkeep : keeps_key c) end.
  { unfold text_section, configured_section, image_section.
    auto 40 with keeps_key. }
  rewrite (Hkeep _). reflexivity.
Qed.

(** *** The calls of a run *)

(** X11.  Whatever the secrets, the session, the API and the libraries, a
    run adds at most three requests to the calls, each one to the model
    "gemini-pro" or to the model "gemini-1.5-flash". *)
Theorem at_most_three_calls secrets s w :
  exists issued,
    calls (fst (script secrets s w)) = calls w ++ issued
    /\ (length issued <= 3)%nat
    /\ Forall known_model issued.
Proof.
  destruct (configured_key secrets) as [key |] eqn:Hkey.
  - destruct (script_spec secrets key s w Hkey) as (w' & E & Hcalls).
    rewrite E. cbn [fst]. exists (text_requests s).
    split; [exact Hcalls |].
    unfold text_requests. destruct (_ && _); cbn.
    + split; [lia |]. apply List.Forall_cons; [| apply List.Forall_nil].
      left. reflexivity.
    + split; [lia | apply List.Forall_nil].
  - exists []. rewrite app_nil_r. split; [| split; [cbn; lia | apply List.Forall_nil]].
    unfold script, configure_api_key, bind at 1, try_except.
    unfold secrets_getitem, configured_key in *.
    destruct secrets as [entries |].
    + unfold bind at 1. rewrite Hkey. reflexivity.
    + reflexivity.
Qed.

End ScriptFacts.

(* ===================================================================== *)
(** ** The theorems at concrete inputs *)
(* ===================================================================== *)

Module Witnesses.
Import Examples.

Lemma show_response_in_order_witness :
  Base64.b64decode pixel_base64 = inr pixel_bytes
  /\ open_png pixel_bytes = inr pixel_bytes
  /\ @show_response failing_sdk
       (response_of [text_part "a"; image_part pixel_base64]) initial_world
     = (with_shown initial_world
          [st_write "Model's description/text: a";
           st_image (pixel_bytes : @Image failing_sdk) "Generated Image" true],
        inr tt).
Proof.
  split; [vm_compute; reflexivity |].
  split; [vm_compute; reflexivity |].
  apply (proj1 (@show_response_in_order failing_sdk)
           [] pixel_base64 pixel_bytes pixel_bytes initial_world);
    vm_compute; reflexivity.
Defined.

Lemma no_candidates_no_content_witness :
  candidates (mk_Response []) = []
  /\ @show_response failing_sdk (mk_Response []) initial_world
     = (initial_world,
        inl (Raise (mk_exn IndexError "list index out of range"))).
Proof.
  split; [reflexivity |].
  apply (@no_candidates_no_content failing_sdk (mk_Response []) initial_world).
  reflexivity.
Defined.

(** C3 as the spec words it fails on [broken_then_text]: the loop raises at
    the broken image and the text part after it is never written. *)
Lemma broken_payload_hides_later_parts :
  @show_parts failing_sdk broken_then_text initial_world
    = (initial_world, inl (Raise one_character_error))
  /\ ~ In (st_write "Model's description/text: b")
         (page (fst (@show_parts failing_sdk broken_then_text initial_world))).
Proof.
  split; [vm_compute; reflexivity |].
  vm_compute. intros [].
Qed.

Lemma decode_error_ends_the_loop_witness :
  @show_parts failing_sdk [text_part "a"] initial_world
    = (with_shown initial_world [st_write "Model's description/text: a"], inr tt)
  /\ Base64.b64decode (Base64.bytes_of "A") = inl one_character_error
  /\ @show_parts failing_sdk
       ([text_part "a"] ++ image_part (Base64.bytes_of "A") :: [text_part "b"])
       initial_world
     = (with_shown initial_world [st_write "Model's description/text: a"],
        inl (Raise one_character_error)).
Proof.
  split; [reflexivity |].
  split; [vm_compute; reflexivity |].
  apply (@decode_error_ends_the_loop failing_sdk
           [text_part "a"] (mk_Blob "image/png" (Base64.bytes_of "A")));
    [reflexivity | vm_compute; reflexivity].
Defined.

Lemma missing_key_escapes_the_handler_witness :
  configured_key (Some ∅) = None
  /\ @script failing_sdk (Some ∅) idle_session initial_world
     = (initial_world, inl (Raise (mk_exn KeyError "'GOOGLE_API_KEY'"))).
Proof.
  split; [reflexivity |].
  apply (@missing_key_escapes_the_handler failing_sdk (Some ∅)). reflexivity.
Defined.

Lemma configured_options_never_reach_the_api_witness :
  str_bool "Explain how AI works" = true
  /\ @configured_section failing_sdk configured_session initial_world
     = (with_shown initial_world
          (configured_form
           ++ [st_spinner "Generating configured text...";
               st_error "Error generating configured text: module 'google.generativeai.types' has no attribute 'GenerateContentConfig'"]),
        inr tt).
Proof.
  split; [reflexivity |].
  apply (@configured_options_never_reach_the_api failing_sdk
           configured_session "Explain how AI works" 100 1.5%float
           initial_world);
    reflexivity.
Defined.

(** C6 as the spec words it fails on a part with neither attribute: the
    loop goes on to the next part, and no warning is anywhere on the page. *)
Lemma unrecognized_part_leaves_no_warning :
  @show_parts failing_sdk [mk_Part "" None; text_part "b"] initial_world
    = (with_shown initial_world [st_write "Model's description/text: b"], inr tt)
  /\ ~ (exists msg,
          In (st_warning msg)
            (page (fst (@show_parts failing_sdk
                          [mk_Part "" None; text_part "b"] initial_world)))).
Proof.
  split; [reflexivity |].
  intros [msg [H | []]]. discriminate H.
Qed.

Lemma handlers_catch_every_exception_witness :
  str_bool "hi" = true
  /\ @generate_text_body failing_sdk "hi" initial_world
     = (with_call (with_shown initial_world [st_spinner "Generating text..."])
          (mk_Request "gemini-pro" "hi" None),
        inl (Raise quota_error))
  /\ @generate_text_response failing_sdk "hi" initial_world
     = (with_shown
          (with_call (with_shown initial_world [st_spinner "Generating text..."])
             (mk_Request "gemini-pro" "hi" None))
          [st_error "Error generating text: 429 quota exceeded"],
        inr tt).
Proof.
  split; [reflexivity |].
  split; [reflexivity |].
  apply (proj1 (proj2 (proj2 (proj2
           (@handlers_catch_every_exception failing_sdk))))
           "hi" initial_world
           (with_call (with_shown initial_world [st_spinner "Generating text..."])
              (mk_Request "gemini-pro" "hi" None))
           quota_error);
    reflexivity.
Defined.

Lemma empty_prompt_only_warns_witness :
  text_query_in empty_prompts_session = Some ""%string
  /\ generate_text_clicked empty_prompts_session = true
  /\ @text_section failing_sdk empty_prompts_session initial_world
     = (with_shown initial_world
          [st_header "Text Generation";
           st_write "Ask Gemini a question and get a text response.";
           st_text_input "Your question:";
           st_button "Generate Text Response";
           st_warning "Please enter a question."],
        inr tt).
Proof.
  split; [reflexivity |].
  split; [reflexivity |].
  apply (proj1 (proj2 (proj2 (proj2
           (@empty_prompt_only_warns failing_sdk)))));
    reflexivity.
Defined.

Lemma at_most_one_element_per_part_witness :
  str_bool "a" = true
  /\ @show_part failing_sdk
       (mk_Part "a" (Some (mk_Blob "image/png" (Base64.bytes_of "A"))))
       initial_world
     = (with_shown initial_world [st_write "Model's description/text: a"],
        inr tt).
Proof.
  split; [reflexivity |].
  apply (proj2 (@at_most_one_element_per_part failing_sdk)). reflexivity.
Defined.

End Witnesses.

(* ===================================================================== *)
(** ** The further theorems at concrete inputs *)
(* ===================================================================== *)

Module MoreWitnesses.
Import Examples.

Lemma text_handlers_show_the_answer_witness :
  str_bool "hi" = true
  /\ @generate_text_response (answering_sdk [text_part "Sachin"]) "hi"
       initial_world
     = (with_call
          (with_shown initial_world
             [st_spinner "Generating text..."; st_success "Response:";
              st_write "Sachin"])
          (mk_Request "gemini-pro" "hi" None),
        inr tt).
Proof.
  split; [reflexivity |].
  apply (@text_handlers_show_the_answer (answering_sdk [text_part "Sachin"])
           "hi" initial_world (response_of [text_part "Sachin"]) "Sachin");
    reflexivity.
Defined.

Lemma text_handlers_banner_before_accessor_error_witness :
  str_bool "hi" = true
  /\ @generate_text_response no_candidate_sdk "hi" initial_world
     = (with_call
          (with_shown initial_world
             [st_spinner "Generating text..."; st_success "Response:";
              st_error "Error generating text: response.text requires a candidate"])
          (mk_Request "gemini-pro" "hi" None),
        inr tt).
Proof.
  split; [reflexivity |].
  apply (@text_handlers_banner_before_accessor_error no_candidate_sdk
           "hi" initial_world (mk_Response [])
           (mk_exn ValueError "response.text requires a candidate"));
    reflexivity.
Defined.

Lemma api_failure_shows_one_error_witness :
  str_bool "hi" = true
  /\ @generate_text_response failing_sdk "hi" initial_world
     = (with_call
          (with_shown initial_world
             [st_spinner "Generating text...";
              st_error "Error generating text: 429 quota exceeded"])
          (mk_Request "gemini-pro" "hi" None),
        inr tt).
Proof.
  split; [reflexivity |].
  apply (@api_failure_shows_one_error failing_sdk "hi" initial_world
           quota_error);
    reflexivity.
Defined.

Lemma one_request_per_prompt_witness :
  " "%string <> ""%string
  /\ calls (fst (@generate_text_response failing_sdk " " initial_world))
     = [mk_Request "gemini-pro" " " None].
Proof.
  split; [discriminate |].
  apply (@one_request_per_prompt failing_sdk " " initial_world).
  discriminate.
Defined.

Lemma generate_image_never_reaches_the_api_witness :
  str_bool "a cat" = true
  /\ @generate_image (answering_sdk [image_part pixel_base64]) "a cat"
       initial_world
     = (with_shown initial_world
          [st_spinner "Generating image... This might take a moment...";
           st_error "Error generating image: module 'google.generativeai.types' has no attribute 'GenerateContentConfig'";
           st_info "Ensure you are using a model capable of image generation (e.g., `gemini-1.5-flash`)."],
        inr tt).
Proof.
  split; [reflexivity |].
  apply (@generate_image_never_reaches_the_api
           (answering_sdk [image_part pixel_base64]) "a cat" initial_world).
  reflexivity.
Defined.

Lemma show_parts_returns_iff_witness :
  forallb (@part_shows failing_sdk) [text_part "a"; image_part pixel_base64]
    = true
  /\ @show_parts failing_sdk [text_part "a"; image_part pixel_base64]
       initial_world
     = (with_shown initial_world
          (flat_map (@shown_for failing_sdk)
             [text_part "a"; image_part pixel_base64]),
        inr tt).
Proof.
  split; [vm_compute; reflexivity |].
  apply (proj2 (@show_parts_returns_iff failing_sdk
                  [text_part "a"; image_part pixel_base64] initial_world)).
  vm_compute. reflexivity.
Defined.

Lemma open_error_ends_the_loop_witness :
  Blob_bool (mk_Blob "image/png" not_an_image) = true
  /\ Base64.b64decode not_an_image = inr (Base64.bytes_of "Man")
  /\ open_png (Base64.bytes_of "Man")
     = inl (mk_exn UnidentifiedImageError "cannot identify image file")
  /\ @show_parts failing_sdk
       ([text_part "a"] ++ image_part not_an_image :: [text_part "b"])
       initial_world
     = (with_shown initial_world [st_write "Model's description/text: a"],
        inl (Raise (mk_exn UnidentifiedImageError "cannot identify image file"))).
Proof.
  split; [reflexivity |].
  split; [vm_compute; reflexivity |].
  split; [vm_compute; reflexivity |].
  apply (@open_error_ends_the_loop failing_sdk [text_part "a"]
           (mk_Blob "image/png" not_an_image) (Base64.bytes_of "Man"));
    [reflexivity | reflexivity | vm_compute; reflexivity
     | vm_compute; reflexivity].
Defined.

Lemma response_without_content_shows_nothing_witness :
  forallb neither [mk_Part "" None; mk_Part "" (Some (mk_Blob "" []))] = true
  /\ @show_response failing_sdk
       (response_of [mk_Part "" None; mk_Part "" (Some (mk_Blob "" []))])
       initial_world
     = (initial_world, inr tt).
Proof.
  split; [reflexivity |].
  apply (@response_without_content_shows_nothing failing_sdk
           (response_of [mk_Part "" None; mk_Part "" (Some (mk_Blob "" []))])
           (mk_Candidate
              (mk_Content [mk_Part "" None; mk_Part "" (Some (mk_Blob "" []))]))
           [] initial_world);
    reflexivity.
Defined.

Lemma idle_run_draws_the_forms_witness :
  configured_key secrets_with_key = Some "k"%string
  /\ @script failing_sdk secrets_with_key idle_session initial_world
     = (mk_world ([] ++ static_page) [] (Some "k"%string), inr tt).
Proof.
  split; [vm_compute; reflexivity |].
  apply (@idle_run_draws_the_forms failing_sdk secrets_with_key "k"
           idle_session initial_world);
    [vm_compute; reflexivity | reflexivity | reflexivity | reflexivity].
Defined.

Lemma configured_key_is_kept_witness :
  configured_key secrets_with_key = Some "k"%string
  /\ api_key (fst (@script failing_sdk secrets_with_key configured_session
                     initial_world))
     = Some "k"%string.
Proof.
  split; [vm_compute; reflexivity |].
  apply (@configured_key_is_kept failing_sdk secrets_with_key "k").
  vm_compute. reflexivity.
Defined.

Lemma b64decode_length_bound_witness :
  Base64.b64decode not_an_image = inr (Base64.bytes_of "Man")
  /\ 4 * Z.of_nat (length (Base64.bytes_of "Man"))
     <= 3 * Z.of_nat (length not_an_image).
Proof.
  split; [vm_compute; reflexivity |].
  apply (Base64Facts.b64decode_length_bound not_an_image (Base64.bytes_of "Man")).
  vm_compute. reflexivity.
Defined.

End MoreWitnesses.

(* ===================================================================== *)
(** ** The decoder on small inputs *)
(* ===================================================================== *)

Module Base64Examples.
Import Base64.

Example b64encode_Man : b64encode (bytes_of "Man") = bytes_of "TWFu".
Proof. reflexivity. Qed.

Example b64decode_padded : b64decode (bytes_of "TWE=") = inr (bytes_of "Ma").
Proof. vm_compute. reflexivity. Qed.

(** Characters outside the alphabet are dropped, not rejected. *)
Example b64decode_drops_other_characters :
  b64decode (bytes_of "T!W F-u") = inr (bytes_of "Man").
Proof. vm_compute. reflexivity. Qed.

(** Whatever follows a complete pad sequence is not read. *)
Example b64decode_stops_at_padding :
  b64decode (bytes_of "TQ==TWFu") = inr (bytes_of "M").
Proof. vm_compute. reflexivity. Qed.

Example b64decode_one_more_than_a_quad :
  b64decode (bytes_of "TWFuA") =
  inl (mk_exn binascii_Error
         "Invalid base64-encoded string: number of data characters (5) cannot be 1 more than a multiple of 4").
Proof. vm_compute. reflexivity. Qed.

Example b64decode_incorrect_padding :
  b64decode (bytes_of "TWF") = inl (mk_exn binascii_Error "Incorrect padding").
Proof. vm_compute. reflexivity. Qed.

Example pixel_is_a_png :
  Examples.starts_with Examples.png_signature Examples.pixel_bytes = true.
Proof. vm_compute. reflexivity. Qed.

End Base64Examples.
